(** * mongodbforms.fieldgenerator: a shallow embedding

    The module under study, [mongodbforms/fieldgenerator.py], maps
    mongoengine field descriptors onto Django form fields.  It consists of
    two classes: [MongoFormFieldGenerator] (strict) and its subclass
    [MongoDefaultFormFieldGenerator] (lenient).

    The embedding keeps the program's shape:
    - a Python object the generator receives is a [descriptor]: its class
      (name and bases, for [__class__.__name__], [__bases__] and
      [isinstance]), its plain attributes (a finite map, for [field.x] and
      [hasattr]) and its [field] attribute (the element of a container);
    - a constructed form field is the constructor call itself: the form
      class, the positional arguments and the keyword arguments;
    - methods run in a state-and-exception monad: the state holds the two
      shared mutable objects the module owns (the module-level list
      [BLANK_CHOICE_DASH] and the class-level dict [field_map]), the
      exceptions are the ones the code can raise or catch. *)

From Stdlib Require Import ZArith Ascii String List Bool.
From stdpp Require Import base option gmap strings list fin_maps.

Set Warnings "-register-all".

Local Open Scope string_scope.
Local Open Scope Z_scope.

(** ** Strings: the ASCII fragment of [str.lower], [str.upper], [str.capitalize]

    A [string] is a sequence of bytes; the case mappings below are
    Python's on ASCII text and leave every other byte alone, so
    statements about them are made for ASCII strings ([is_ascii]). *)

Module PyStr.

Definition is_upper (c : ascii) : bool :=
  let n := nat_of_ascii c in (Nat.leb 65 n && Nat.leb n 90)%bool.

Definition is_lower (c : ascii) : bool :=
  let n := nat_of_ascii c in (Nat.leb 97 n && Nat.leb n 122)%bool.

Definition lower_char (c : ascii) : ascii :=
  if is_upper c then ascii_of_nat (nat_of_ascii c + 32) else c.

Definition upper_char (c : ascii) : ascii :=
  if is_lower c then ascii_of_nat (nat_of_ascii c - 32) else c.

(** [s.lower()] *)
Fixpoint lower (s : string) : string :=
  match s with
  | EmptyString => EmptyString
  | String c r => String (lower_char c) (lower r)
  end.

(** [s.upper()] *)
Fixpoint upper (s : string) : string :=
  match s with
  | EmptyString => EmptyString
  | String c r => String (upper_char c) (upper r)
  end.

(** [s.capitalize()]: the first character upper-cased, all the others
    lower-cased. *)
Definition capitalize (s : string) : string :=
  match s with
  | EmptyString => EmptyString
  | String c r => String (upper_char c) (lower r)
  end.

(** [s[0].upper() + s[1:]]: only the first character is touched. *)
Definition upper_first (s : string) : string :=
  match s with
  | EmptyString => EmptyString
  | String c r => String (upper_char c) r
  end.

(** [list(s)]: the one-character strings of [s]. *)
Fixpoint chars (s : string) : list string :=
  match s with
  | EmptyString => []
  | String c r => String c EmptyString :: chars r
  end.

(** Every character of [s] is an ASCII character. *)
Fixpoint is_ascii (s : string) : bool :=
  match s with
  | EmptyString => true
  | String c r => (Nat.ltb (nat_of_ascii c) 128 && is_ascii r)%bool
  end.

(** [s.title()]: every letter that follows a non-letter upper-cased,
    every other letter lower-cased. *)
Fixpoint title_from (after_letter : bool) (s : string) : string :=
  match s with
  | EmptyString => EmptyString
  | String c r =>
      String (if after_letter then lower_char c else upper_char c)
             (title_from (is_upper c || is_lower c)%bool r)
  end.

Definition title (s : string) : string := title_from false s.

End PyStr.

(** ** Python values *)

(** The three coercion methods of the generator, as bound-method values. *)
Inductive coercer := string_field_m | integer_field_m | boolean_field_m.

(** The two widget classes the module names. *)
Inductive widget := Textarea | CheckboxSelectMultiple.

Inductive value :=
| VNone
| VBool (b : bool)
| VInt (n : Z)
| VStr (s : string)
| VList (l : list value)
| VTuple (l : list value)
| VDict (l : list (value * value))
| VMethod (m : coercer)        (* [self.string_field] and the like *)
| VWidget (w : widget)         (* [forms.Textarea], [forms.CheckboxSelectMultiple] *)
| VDocument (name : string)    (* a document class *)
| VManager (name : string)     (* [<document class>.objects] *)
| VOpaque (id : nat).          (* any other object, compared by identity *)

(** Python truth value ([bool(v)]). *)
Definition truthy (v : value) : bool :=
  match v with
  | VNone => false
  | VBool b => b
  | VInt n => negb (n =? 0)
  | VStr s => negb (String.eqb s "")
  | VList l | VTuple l => negb (Nat.eqb (length l) 0)
  | VDict l => negb (Nat.eqb (length l) 0)
  | VMethod _ | VWidget _ | VDocument _ | VManager _ | VOpaque _ => true
  end.

Definition coercer_eqb (a b : coercer) : bool :=
  match a, b with
  | string_field_m, string_field_m
  | integer_field_m, integer_field_m
  | boolean_field_m, boolean_field_m => true
  | _, _ => false
  end.

Definition widget_eqb (a b : widget) : bool :=
  match a, b with
  | Textarea, Textarea | CheckboxSelectMultiple, CheckboxSelectMultiple => true
  | _, _ => false
  end.

(** Python [a == b].  [bool] is a subclass of [int], sequences compare
    element by element, dicts compare as maps. *)
Fixpoint py_eq (a b : value) {struct a} : bool :=
  match a, b with
  | VNone, VNone => true
  | VBool x, VBool y => Bool.eqb x y
  | VBool x, VInt y => (if x then 1 else 0) =? y
  | VInt x, VBool y => x =? (if y then 1 else 0)
  | VInt x, VInt y => x =? y
  | VStr x, VStr y => String.eqb x y
  | VList xs, VList ys | VTuple xs, VTuple ys =>
      (fix seq_eq (xs ys : list value) {struct xs} : bool :=
         match xs, ys with
         | [], [] => true
         | x :: xs', y :: ys' => py_eq x y && seq_eq xs' ys'
         | _, _ => false
         end) xs ys
  | VDict xs, VDict ys =>
      Nat.eqb (length xs) (length ys) &&
      (fix keys_in (xs : list (value * value)) {struct xs} : bool :=
         match xs with
         | [] => true
         | (k, v) :: xs' =>
             existsb (fun kv => py_eq k (fst kv) && py_eq v (snd kv)) ys
             && keys_in xs'
         end) xs
  | VMethod x, VMethod y => coercer_eqb x y
  | VWidget x, VWidget y => widget_eqb x y
  | VDocument x, VDocument y => String.eqb x y
  | VManager x, VManager y => String.eqb x y
  | VOpaque x, VOpaque y => Nat.eqb x y
  | _, _ => false
  end.

(** [v in seq] for a tuple or list [seq]. *)
Definition py_in (v : value) (seq : list value) : bool :=
  existsb (fun e => py_eq v e) seq.

(** [django.core.validators.EMPTY_VALUES = (None, '', [], (), {})] *)
Definition EMPTY_VALUES : list value :=
  [VNone; VStr ""; VList []; VTuple []; VDict []].

(** [list(v)]: the elements of an iterable, [None] when [v] is not one. *)
Definition py_list (v : value) : option (list value) :=
  match v with
  | VList l | VTuple l => Some l
  | VStr s => Some (map VStr (PyStr.chars s))
  | VDict l => Some (map fst l)
  | _ => None
  end.

(** ** Classes, descriptors, form fields *)

(** A class as the generator sees it: [__name__] and [__bases__]. *)
Inductive pyclass := PyClass (name : string) (bases : list pyclass).

Definition class_name (c : pyclass) : string := let 'PyClass n _ := c in n.
Definition class_bases (c : pyclass) : list pyclass := let 'PyClass _ b := c in b.

Fixpoint class_eqb (a b : pyclass) {struct a} : bool :=
  let 'PyClass n xs := a in
  let 'PyClass m ys := b in
  String.eqb n m &&
  (fix all_eq (xs ys : list pyclass) {struct xs} : bool :=
     match xs, ys with
     | [], [] => true
     | x :: xs', y :: ys' => class_eqb x y && all_eq xs' ys'
     | _, _ => false
     end) xs ys.

(** [issubclass(c, target)]: [target] is [c] or an ancestor of [c]. *)
Fixpoint issubclass (c target : pyclass) {struct c} : bool :=
  class_eqb c target ||
  (let 'PyClass _ bs := c in existsb (fun b => issubclass b target) bs).

(** The classes the module imports or meets. *)
Definition object_ : pyclass := PyClass "object" [].
Definition NoneType : pyclass := PyClass "NoneType" [object_].
Definition BaseField : pyclass := PyClass "BaseField" [object_].
Definition MongoReferenceField : pyclass := PyClass "ReferenceField" [BaseField].
Definition MongoEmbeddedDocumentField : pyclass :=
  PyClass "EmbeddedDocumentField" [BaseField].

(** Keyword arguments and dict literals with string keys. *)
Abbreviation dict := (gmap string value).

(** A field descriptor, or any other object handed to [generate]. *)
Inductive descriptor := Descriptor {
  d_class : pyclass;                 (* [field.__class__] *)
  d_attrs : dict;                    (* the attributes [field.x], but [field] *)
  d_field : option descriptor        (* [field.field], when there is one *)
}.

(** Python's [None], as an object. *)
Definition py_None : descriptor := Descriptor NoneType ∅ None.

(** [isinstance(obj, cls)] *)
Definition isinstance (obj : descriptor) (cls : pyclass) : bool :=
  issubclass (d_class obj) cls.

(** [hasattr(field, name)] for a plain attribute. *)
Definition hasattr (field : descriptor) (name : string) : bool :=
  match d_attrs field !! name with Some _ => true | None => false end.

(** The form-field classes the module instantiates. *)
Inductive form_class :=
| MongoCharField | TypedChoiceField | EmailField | URLField | IntegerField
| FloatField | DecimalField | BooleanField | DateTimeField | ReferenceField
| MultipleChoiceField | DocumentMultipleChoiceField | ListField | MapField
| FileField | ImageField | CharField.

(** What [form_field.__class__] can be. *)
Inductive class_ref := NoneType_ref | FormClass (c : form_class).

(** A positional constructor argument. *)
Inductive arg := AValue (v : value) | AClass (c : class_ref).

(** A form field is the constructor call that made it. *)
Record formfield := FormField {
  form_cls : form_class;
  form_args : list arg;
  form_kwargs : dict
}.

(** [form_field.__class__], where [form_field] may be [None]. *)
Definition class_of (r : option formfield) : class_ref :=
  match r with
  | None => NoneType_ref
  | Some f => FormClass (form_cls f)
  end.

(** A dict literal. *)
Definition dict_of (l : list (string * value)) : dict := list_to_map l.

(** [defaults.update(kwargs)]: the entries of [kwargs] win. *)
Definition update (defaults kwargs : dict) : dict := kwargs ∪ defaults.

(** ** State and exceptions *)

Inductive exn := AttributeError | NotImplementedError | TypeError.

Inductive result (A : Type) :=
| Ok (a : A)
| Raise (e : exn).
Arguments Ok {A} a.
Arguments Raise {A} e.

(** The shared mutable objects of the module. *)
Record state := State {
  BLANK_CHOICE_DASH : list value;      (* module-level list *)
  field_map : gmap string string       (* class attribute of the generator *)
}.

(** The state right after the module is imported. *)
Definition initial_state : state :=
  {| BLANK_CHOICE_DASH := [VTuple [VStr ""; VStr "---------"]];
     field_map := {[ "sortedlistfield" := "generate_listfield" ]} |}.

Definition M (A : Type) : Type := state -> result A * state.

#[global] Instance M_ret : MRet M := fun A a s => (Ok a, s).

#[global] Instance M_bind : MBind M := fun A B k m s =>
  match m s with
  | (Ok a, s') => k a s'
  | (Raise e, s') => (Raise e, s')
  end.

Definition raise {A} (e : exn) : M A := fun s => (Raise e, s).

Definition get_state : M state := fun s => (Ok s, s).

(** [try: body; except e: handler] *)
Definition try_except {A} (body : M A) (e : exn -> bool) (handler : M A) : M A :=
  fun s =>
    match body s with
    | (Raise x, s') => if e x then handler s' else (Raise x, s')
    | r => r
    end.

Definition is_AttributeError (e : exn) : bool :=
  match e with AttributeError => true | _ => false end.

Definition is_NotImplementedError (e : exn) : bool :=
  match e with NotImplementedError => true | _ => false end.

(** [field.name]: raises [AttributeError] when the attribute is missing. *)
Definition getattr (field : descriptor) (name : string) : M value :=
  match d_attrs field !! name with
  | Some v => mret v
  | None => raise AttributeError
  end.

(** [v.objects]: the query manager of a document class. *)
Definition objects (v : value) : M value :=
  match v with
  | VDocument n => mret (VManager n)
  | _ => raise AttributeError
  end.

(** [list(v)], raising [TypeError] when [v] is not iterable. *)
Definition list_ (v : value) : M (list value) :=
  match py_list v with
  | Some l => mret l
  | None => raise TypeError
  end.

(** ** The two library functions behind the default label

    [django.db.models.options.get_verbose_name] and
    [django.utils.text.capfirst] are Django's; the generator only composes
    them, so they are an interface of the development. *)
Class DjangoText := {
  get_verbose_name : string -> string;
  capfirst : string -> string
}.

(** ** class MongoFormFieldGenerator *)

(** Which generator [self] is an instance of. *)
Inductive generator := MongoFormFieldGenerator | MongoDefaultFormFieldGenerator.

(** The [generate_*] methods a generator has (the subclass adds none). *)
Inductive method :=
| m_stringfield | m_emailfield | m_urlfield | m_intfield | m_floatfield
| m_decimalfield | m_booleanfield | m_datetimefield | m_referencefield
| m_listfield | m_mapfield | m_filefield | m_imagefield.

Definition methods : list (string * method) :=
  [ ("generate_stringfield", m_stringfield);
    ("generate_emailfield", m_emailfield);
    ("generate_urlfield", m_urlfield);
    ("generate_intfield", m_intfield);
    ("generate_floatfield", m_floatfield);
    ("generate_decimalfield", m_decimalfield);
    ("generate_booleanfield", m_booleanfield);
    ("generate_datetimefield", m_datetimefield);
    ("generate_referencefield", m_referencefield);
    ("generate_listfield", m_listfield);
    ("generate_mapfield", m_mapfield);
    ("generate_filefield", m_filefield);
    ("generate_imagefield", m_imagefield) ].

(** [getattr(self, name)] for a handler name: [None] stands for the
    [AttributeError] of a missing attribute ([hasattr] false). *)
Fixpoint lookup_method (name : string) (l : list (string * method)) : option method :=
  match l with
  | [] => None
  | (n, m) :: l' => if String.eqb name n then Some m else lookup_method name l'
  end.

Definition getattr_self (name : string) : option method := lookup_method name methods.

(** ['generate_%s' % name] *)
Definition generate_ (name : string) : string := "generate_" ++ name.

Section Generator.

Context `{DjangoText}.

(** [get_field_choices(self, field, include_blank=True,
    blank_choice=BLANK_CHOICE_DASH)]; every call site leaves the default
    [blank_choice], which is the module-level list object. *)
Definition get_field_choices (field : descriptor) (include_blank : bool) : M value :=
  s ← get_state;
  let blank_choice := BLANK_CHOICE_DASH s in
  let first_choice :=
    if include_blank && truthy (VList blank_choice) then blank_choice else [] in
  choices ← getattr field "choices";
  l ← list_ choices;
  mret (VList (first_choice ++ l)).

(** [boolean_field(self, value)] *)
Definition boolean_field (v : value) : M value :=
  if py_in v EMPTY_VALUES then mret VNone
  else match v with
       | VStr s => mret (VBool (String.eqb (PyStr.lower s) "true"))
       | _ => raise AttributeError           (* no [lower] method *)
       end.

(** [get_field_label(self, field)] *)
Definition get_field_label (field : descriptor) : M value :=
  verbose_name ← getattr field "verbose_name";
  if truthy verbose_name then mret verbose_name
  else
    name ← getattr field "name";
    match name with
    | VNone => mret (VStr "")
    | VStr n => mret (VStr (capfirst (get_verbose_name n)))
    | _ => raise TypeError                    (* [re.sub] on a non-string *)
    end.

(** [get_field_help_text(self, field)] *)
Definition get_field_help_text (field : descriptor) : M value :=
  help_text ← getattr field "help_text";
  if truthy help_text then
    match help_text with
    | VStr h => mret (VStr (PyStr.capitalize h))
    | _ => raise AttributeError               (* no [capitalize] method *)
    end
  else mret VNone.

(** [defaults.update(kwargs)], then the constructor call with the
    entries of [defaults] as keyword arguments.  The form classes are
    defined outside this module: the result records the call that is
    made, and what the constructor itself does with its arguments (it may
    reject some) is not part of the model. *)
Definition construct (c : form_class) (args : list arg) (defaults kwargs : dict)
  : M (option formfield) :=
  mret (Some (FormField c args (update defaults kwargs))).

Definition generate_stringfield (field : descriptor) (kwargs : dict)
  : M (option formfield) :=
  label ← get_field_label field;
  initial ← getattr field "default";
  required ← getattr field "required";
  help_text ← get_field_help_text field;
  let defaults := dict_of [("label", label); ("initial", initial);
                           ("required", required); ("help_text", help_text)] in
  (* if field.max_length and not field.choices: *)
  max_length ← getattr field "max_length";
  c1 ← (if truthy max_length
        then choices ← getattr field "choices"; mret (negb (truthy choices))
        else mret false);
  let defaults := if c1 : bool then <["max_length" := max_length]> defaults
                  else defaults in
  (* if field.max_length is None and not field.choices: *)
  c2 ← (match max_length with
        | VNone => choices ← getattr field "choices"; mret (negb (truthy choices))
        | _ => mret false
        end);
  let defaults := if c2 : bool then <["widget" := VWidget Textarea]> defaults
                  else defaults in
  regex ← getattr field "regex";
  if truthy regex then
    construct MongoCharField [] (<["regex" := regex]> defaults) kwargs
  else
    choices ← getattr field "choices";
    if truthy choices then
      field_choices ← get_field_choices field true;
      let defaults := <["coerce" := VMethod string_field_m]>
                        (<["choices" := field_choices]> defaults) in
      required ← getattr field "required";
      let defaults := if negb (truthy required)
                      then <["empty_value" := VNone]> defaults else defaults in
      construct TypedChoiceField [] defaults kwargs
    else
      construct MongoCharField [] defaults kwargs.

Definition generate_emailfield (field : descriptor) (kwargs : dict)
  : M (option formfield) :=
  required ← getattr field "required";
  min_length ← getattr field "min_length";
  max_length ← getattr field "max_length";
  initial ← getattr field "default";
  label ← get_field_label field;
  help_text ← get_field_help_text field;
  let defaults := dict_of [("required", required); ("min_length", min_length);
                           ("max_length", max_length); ("initial", initial);
                           ("label", label); ("help_text", help_text)] in
  construct EmailField [] defaults kwargs.

Definition generate_urlfield (field : descriptor) (kwargs : dict)
  : M (option formfield) :=
  required ← getattr field "required";
  min_length ← getattr field "min_length";
  max_length ← getattr field "max_length";
  initial ← getattr field "default";
  label ← get_field_label field;
  help_text ← get_field_help_text field;
  let defaults := dict_of [("required", required); ("min_length", min_length);
                           ("max_length", max_length); ("initial", initial);
                           ("label", label); ("help_text", help_text)] in
  construct URLField [] defaults kwargs.

Definition generate_intfield (field : descriptor) (kwargs : dict)
  : M (option formfield) :=
  choices ← getattr field "choices";
  if truthy choices then
    required ← getattr field "required";
    initial ← getattr field "default";
    label ← get_field_label field;
    field_choices ← get_field_choices field true;
    help_text ← get_field_help_text field;
    let defaults := dict_of [("coerce", VMethod integer_field_m);
                             ("empty_value", VNone);
                             ("required", required); ("initial", initial);
                             ("label", label); ("choices", field_choices);
                             ("help_text", help_text)] in
    construct TypedChoiceField [] defaults kwargs
  else
    required ← getattr field "required";
    min_value ← getattr field "min_value";
    max_value ← getattr field "max_value";
    initial ← getattr field "default";
    label ← get_field_label field;
    help_text ← get_field_help_text field;
    let defaults := dict_of [("required", required); ("min_value", min_value);
                             ("max_value", max_value); ("initial", initial);
                             ("label", label); ("help_text", help_text)] in
    construct IntegerField [] defaults kwargs.

Definition generate_floatfield (field : descriptor) (kwargs : dict)
  : M (option formfield) :=
  label ← get_field_label field;
  initial ← getattr field "default";
  required ← getattr field "required";
  min_value ← getattr field "min_value";
  max_value ← getattr field "max_value";
  help_text ← get_field_help_text field;
  let defaults := dict_of [("label", label); ("initial", initial);
                           ("required", required); ("min_value", min_value);
                           ("max_value", max_value); ("help_text", help_text)] in
  construct FloatField [] defaults kwargs.

Definition generate_decimalfield (field : descriptor) (kwargs : dict)
  : M (option formfield) :=
  label ← get_field_label field;
  initial ← getattr field "default";
  required ← getattr field "required";
  min_value ← getattr field "min_value";
  max_value ← getattr field "max_value";
  help_text ← get_field_help_text field;
  let defaults := dict_of [("label", label); ("initial", initial);
                           ("required", required); ("min_value", min_value);
                           ("max_value", max_value); ("help_text", help_text)] in
  construct DecimalField [] defaults kwargs.

Definition generate_booleanfield (field : descriptor) (kwargs : dict)
  : M (option formfield) :=
  choices ← getattr field "choices";
  if truthy choices then
    required ← getattr field "required";
    initial ← getattr field "default";
    label ← get_field_label field;
    field_choices ← get_field_choices field true;
    help_text ← get_field_help_text field;
    let defaults := dict_of [("coerce", VMethod boolean_field_m);
                             ("empty_value", VNone);
                             ("required", required); ("initial", initial);
                             ("label", label); ("choices", field_choices);
                             ("help_text", help_text)] in
    construct TypedChoiceField [] defaults kwargs
  else
    required ← getattr field "required";
    initial ← getattr field "default";
    label ← get_field_label field;
    help_text ← get_field_help_text field;
    let defaults := dict_of [("required", required); ("initial", initial);
                             ("label", label); ("help_text", help_text)] in
    construct BooleanField [] defaults kwargs.

Definition generate_datetimefield (field : descriptor) (kwargs : dict)
  : M (option formfield) :=
  required ← getattr field "required";
  initial ← getattr field "default";
  label ← get_field_label field;
  let defaults := dict_of [("required", required); ("initial", initial);
                           ("label", label)] in
  construct DateTimeField [] defaults kwargs.

Definition generate_referencefield (field : descriptor) (kwargs : dict)
  : M (option formfield) :=
  label ← get_field_label field;
  help_text ← get_field_help_text field;
  required ← getattr field "required";
  let defaults := dict_of [("label", label); ("help_text", help_text);
                           ("required", required)] in
  document_type ← getattr field "document_type";
  queryset ← objects document_type;
  construct ReferenceField [AValue queryset] defaults kwargs.

(** The two container handlers call [self.generate] on the element; it
    is the parameter [self_generate], bound to the generator's own
    [generate] where the recursion is tied below. *)
Section Containers.

Variable self_generate : descriptor -> dict -> M (option formfield).

Definition generate_listfield (field : descriptor) (kwargs : dict)
  : M (option formfield) :=
  match d_field field with
  | None => raise AttributeError                          (* [field.field] *)
  | Some elem =>
      elem_choices ← getattr elem "choices";
      if truthy elem_choices then
        required ← getattr field "required";
        label ← get_field_label field;
        help_text ← get_field_help_text field;
        let defaults := dict_of [("choices", elem_choices);
                                 ("required", required); ("label", label);
                                 ("help_text", help_text);
                                 ("widget", VWidget CheckboxSelectMultiple)] in
        construct MultipleChoiceField [] defaults kwargs
      else if isinstance elem MongoReferenceField then
        label ← get_field_label field;
        help_text ← get_field_help_text field;
        required ← getattr field "required";
        let defaults := dict_of [("label", label); ("help_text", help_text);
                                 ("required", required)] in
        document_type ← getattr elem "document_type";
        queryset ← objects document_type;
        construct DocumentMultipleChoiceField [AValue queryset] defaults kwargs
      else if negb (isinstance elem MongoEmbeddedDocumentField) then
        label ← get_field_label field;
        help_text ← get_field_help_text field;
        required ← getattr field "required";
        let defaults := dict_of [("label", label); ("help_text", help_text);
                                 ("required", required)] in
        form_field ← self_generate elem ∅;
        construct ListField [AClass (class_of form_field)] defaults kwargs
      else
        mret None                                   (* falls off the end *)
  end.

Definition generate_mapfield (field : descriptor) (kwargs : dict)
  : M (option formfield) :=
  label ← get_field_label field;
  help_text ← get_field_help_text field;
  required ← getattr field "required";
  let defaults := dict_of [("label", label); ("help_text", help_text);
                           ("required", required)] in
  match d_field field with
  | None => raise AttributeError                          (* [field.field] *)
  | Some elem =>
      form_field ← self_generate elem ∅;
      construct MapField [AClass (class_of form_field)] defaults kwargs
  end.

Definition generate_filefield (field : descriptor) (kwargs : dict)
  : M (option formfield) :=
  required ← getattr field "required";
  label ← get_field_label field;
  initial ← getattr field "default";
  help_text ← get_field_help_text field;
  let defaults := dict_of [("required", required); ("label", label);
                           ("initial", initial); ("help_text", help_text)] in
  construct FileField [] defaults kwargs.

Definition generate_imagefield (field : descriptor) (kwargs : dict)
  : M (option formfield) :=
  required ← getattr field "required";
  label ← get_field_label field;
  initial ← getattr field "default";
  help_text ← get_field_help_text field;
  let defaults := dict_of [("required", required); ("label", label);
                           ("initial", initial); ("help_text", help_text)] in
  construct ImageField [] defaults kwargs.

(** [getattr(self, name)(field, **kwargs)] for a method that exists. *)
Definition call (m : method) (field : descriptor) (kwargs : dict)
  : M (option formfield) :=
  match m with
  | m_stringfield => generate_stringfield field kwargs
  | m_emailfield => generate_emailfield field kwargs
  | m_urlfield => generate_urlfield field kwargs
  | m_intfield => generate_intfield field kwargs
  | m_floatfield => generate_floatfield field kwargs
  | m_decimalfield => generate_decimalfield field kwargs
  | m_booleanfield => generate_booleanfield field kwargs
  | m_datetimefield => generate_datetimefield field kwargs
  | m_referencefield => generate_referencefield field kwargs
  | m_listfield => generate_listfield field kwargs
  | m_mapfield => generate_mapfield field kwargs
  | m_filefield => generate_filefield field kwargs
  | m_imagefield => generate_imagefield field kwargs
  end.

(** [getattr(self, name)(field, **kwargs)]: [AttributeError] when
    [self] has no such method. *)
Definition call_by_name (name : string) (field : descriptor) (kwargs : dict)
  : M (option formfield) :=
  match getattr_self name with
  | Some m => call m field kwargs
  | None => raise AttributeError
  end.

(** [MongoFormFieldGenerator.generate].  Every path through the body
    of the [for] loop returns or raises, so the loop never reaches a
    second base class; with no base class at all the method falls off
    its end and returns [None]. *)
Definition MongoFormFieldGenerator_generate (field : descriptor) (kwargs : dict)
  : M (option formfield) :=
  let field_name := PyStr.lower (class_name (d_class field)) in
  match getattr_self (generate_ field_name) with
  | Some m => call m field kwargs
  | None =>
      match class_bases (d_class field) with
      | [] => mret None
      | cls :: _ =>
          let cls_name := PyStr.lower (class_name cls) in
          try_except
            (call_by_name (generate_ cls_name) field kwargs)
            is_AttributeError
            (s ← get_state;
             match field_map s !! cls_name with
             | Some name => call_by_name name field kwargs
             | None => raise NotImplementedError
             end)
      end
  end.

(** The [except NotImplementedError] clause of the lenient [generate]:
    a plain [CharField] from what the descriptor exposes. *)
Definition charfield_fallback (field : descriptor) (kwargs : dict)
  : M (option formfield) :=
  required ← getattr field "required";
  let defaults := dict_of [("required", required)] in
  defaults ← (if hasattr field "min_length"
              then v ← getattr field "min_length";
                   mret (<["min_length" := v]> defaults)
              else mret defaults);
  defaults ← (if hasattr field "max_length"
              then v ← getattr field "max_length";
                   mret (<["max_length" := v]> defaults)
              else mret defaults);
  defaults ← (if hasattr field "default"
              then v ← getattr field "default";
                   mret (<["initial" := v]> defaults)
              else mret defaults);
  construct CharField [] defaults kwargs.

(** [MongoDefaultFormFieldGenerator.generate]; the [super()] call runs
    the parent's method on the same [self]. *)
Definition MongoDefaultFormFieldGenerator_generate
    (field : descriptor) (kwargs : dict) : M (option formfield) :=
  try_except
    (MongoFormFieldGenerator_generate field kwargs)
    is_NotImplementedError
    (charfield_fallback field kwargs).

End Containers.

(** [self.generate(field, **kwargs)], dispatched on the class of [self]. *)
Fixpoint generate (self : generator) (field : descriptor) (kwargs : dict)
    {struct field} : M (option formfield) :=
  match self with
  | MongoFormFieldGenerator =>
      MongoFormFieldGenerator_generate (generate self) field kwargs
  | MongoDefaultFormFieldGenerator =>
      MongoDefaultFormFieldGenerator_generate (generate self) field kwargs
  end.

End Generator.

(** ** Django's two text functions, and mongoengine's field classes

    Used to run the generator on concrete descriptors. *)

Module Django.

Definition is_space (c : ascii) : bool :=
  let n := nat_of_ascii c in
  (Nat.eqb n 32 || (Nat.leb 9 n && Nat.leb n 13) || (Nat.leb 28 n && Nat.leb n 31))%bool.

(** [re.sub('(((?<=[a-z])[A-Z])|([A-Z](?![A-Z]|$)))', ' \\1', s)]: a space
    goes before every capital that follows a lower-case letter or that
    is followed by a character other than a capital. *)
Fixpoint space_capitals (prev : option ascii) (s : string) : string :=
  match s with
  | EmptyString => EmptyString
  | String c r =>
      let after_lower :=
        match prev with Some p => PyStr.is_lower p | None => false end in
      let before_other :=
        match r with
        | EmptyString => false
        | String n EmptyString =>
            negb (PyStr.is_upper n) && negb (Nat.eqb (nat_of_ascii n) 10)
        | String n _ => negb (PyStr.is_upper n)
        end in
      let rest := String c (space_capitals (Some c) r) in
      if (PyStr.is_upper c && (after_lower || before_other))%bool
      then String " " rest else rest
  end.

Fixpoint lstrip (s : string) : string :=
  match s with
  | String c r => if is_space c then lstrip r else s
  | EmptyString => EmptyString
  end.

Fixpoint rstrip (s : string) : string :=
  match s with
  | EmptyString => EmptyString
  | String c r =>
      match rstrip r with
      | EmptyString => if is_space c then EmptyString else String c EmptyString
      | r' => String c r'
      end
  end.

(** [django.db.models.options.get_verbose_name] *)
Definition get_verbose_name (class_name : string) : string :=
  lstrip (rstrip (PyStr.lower (space_capitals None class_name))).

(** [django.utils.text.capfirst] *)
Definition capfirst (x : string) : string := PyStr.upper_first x.

End Django.

#[global] Instance django_text : DjangoText :=
  {| get_verbose_name := Django.get_verbose_name;
     capfirst := Django.capfirst |}.

Module Mongoengine.

Definition ComplexBaseField := PyClass "ComplexBaseField" [BaseField].
Definition StringField := PyClass "StringField" [BaseField].
Definition IntField := PyClass "IntField" [BaseField].
Definition BooleanField := PyClass "BooleanField" [BaseField].
Definition ListField := PyClass "ListField" [ComplexBaseField].
Definition SortedListField := PyClass "SortedListField" [ListField].
Definition DictField := PyClass "DictField" [ComplexBaseField].
Definition MapField := PyClass "MapField" [DictField].
Definition GenericReferenceField := PyClass "GenericReferenceField" [BaseField].

(** What [BaseField.__init__] sets when called with no argument. *)
Definition base_attrs : dict :=
  dict_of [("name", VNone); ("verbose_name", VNone); ("help_text", VNone);
           ("default", VNone); ("required", VBool false); ("choices", VNone)].

(** A [cls] instance built with keyword arguments [kw], for a field class
    whose own attributes default to [own]. *)
Definition new (cls : pyclass) (own kw : dict) (elem : option descriptor)
  : descriptor :=
  Descriptor cls (kw ∪ own ∪ base_attrs) elem.

Definition string_attrs : dict :=
  dict_of [("regex", VNone); ("max_length", VNone); ("min_length", VNone)].

Definition number_attrs : dict :=
  dict_of [("min_value", VNone); ("max_value", VNone)].

End Mongoengine.

(** * Sample descriptors *)

Definition pair_ (a b : string) : value := VTuple [VStr a; VStr b].

Definition ab_choices : value := VList [pair_ "a" "A"; pair_ "b" "B"].

(** [StringField(choices=[("a","A"),("b","B")], required=False)] *)
Definition string_with_choices : descriptor :=
  Mongoengine.new Mongoengine.StringField Mongoengine.string_attrs
    (dict_of [("choices", ab_choices); ("required", VBool false)]) None.

(** [StringField(choices=[("a","A"),("b","B")], regex="^[ab]$")]; the
    descriptor holds the compiled pattern. *)
Definition string_with_regex_and_choices : descriptor :=
  Mongoengine.new Mongoengine.StringField Mongoengine.string_attrs
    (dict_of [("choices", ab_choices); ("regex", VOpaque 0)]) None.

(** [IntField(choices=[(1,"one"),(2,"two")], required=True)] *)
Definition int_with_choices : descriptor :=
  Mongoengine.new Mongoengine.IntField Mongoengine.number_attrs
    (dict_of [("choices", VList [VTuple [VInt 1; VStr "one"];
                                 VTuple [VInt 2; VStr "two"]]);
              ("required", VBool true)]) None.

(** [StringField(help_text="use ISO format")], attribute [when] of its
    document. *)
Definition string_with_help_text : descriptor :=
  Mongoengine.new Mongoengine.StringField Mongoengine.string_attrs
    (dict_of [("name", VStr "when"); ("help_text", VStr "use ISO format")]) None.

(** [StringField()], attribute [first_name] of its document. *)
Definition first_name : descriptor :=
  Mongoengine.new Mongoengine.StringField Mongoengine.string_attrs
    (dict_of [("name", VStr "first_name")]) None.

(** An instance of [class Tagged(Mixin, StringField)], [Mixin] a plain class. *)
Definition Mixin : pyclass := PyClass "Mixin" [object_].
Definition Tagged : pyclass := PyClass "Tagged" [Mixin; Mongoengine.StringField].
Definition tagged_field : descriptor :=
  Mongoengine.new Tagged Mongoengine.string_attrs ∅ None.

(** [GenericReferenceField()], a kind without a handler. *)
Definition generic_reference : descriptor :=
  Mongoengine.new Mongoengine.GenericReferenceField ∅ ∅ None.

(** [ReferenceField(Author)] and [ListField(ReferenceField(Author))] *)
Definition author_reference : descriptor :=
  Mongoengine.new MongoReferenceField
    (dict_of [("document_type", VDocument "Author")]) ∅ None.


(** [StringField()] and [ListField(StringField())] *)
Definition plain_string : descriptor :=
  Mongoengine.new Mongoengine.StringField Mongoengine.string_attrs ∅ None.
Definition list_of_strings : descriptor :=
  Mongoengine.new Mongoengine.ListField ∅ ∅ (Some plain_string).

(** [SortedListField(StringField())], and an instance of
    [class Ranked(SortedListField)] *)
Definition sorted_list_of_strings : descriptor :=
  Mongoengine.new Mongoengine.SortedListField ∅ ∅ (Some plain_string).
Definition Ranked : pyclass := PyClass "Ranked" [Mongoengine.SortedListField].
Definition ranked_list_of_strings : descriptor :=
  Mongoengine.new Ranked ∅ ∅ (Some plain_string).

(** [ListField(GenericReferenceField())] *)
Definition list_of_generic_references : descriptor :=
  Mongoengine.new Mongoengine.ListField ∅ ∅ (Some generic_reference).

(** [ListField()]: the element defaults to [None]. *)
Definition list_without_element : descriptor :=
  Mongoengine.new Mongoengine.ListField ∅ ∅ (Some py_None).

(** [FloatField(choices=[(0.5,"half"),(1.0,"whole")])]; the floats are
    opaque values. *)
Definition MongoFloatField : pyclass := PyClass "FloatField" [BaseField].
Definition float_with_choices : descriptor :=
  Mongoengine.new MongoFloatField Mongoengine.number_attrs
    (dict_of [("choices", VList [VTuple [VOpaque 1; VStr "half"];
                                 VTuple [VOpaque 2; VStr "whole"]])]) None.

(** [DateTimeField(help_text="local time")] *)
Definition MongoDateTimeField : pyclass := PyClass "DateTimeField" [BaseField].
Definition datetime_with_help_text : descriptor :=
  Mongoengine.new MongoDateTimeField ∅
    (dict_of [("help_text", VStr "local time")]) None.

(** Instances of [class Slug(StringField)] and of
    [class SLUG(StringField, Mixin)] *)
Definition Slug : pyclass := PyClass "Slug" [Mongoengine.StringField].
Definition slug_field : descriptor :=
  Mongoengine.new Slug Mongoengine.string_attrs ∅ None.
Definition SLUG : pyclass := PyClass "SLUG" [Mongoengine.StringField; Mixin].

(** An instance of [class Tags(ListField)] built without an element *)
Definition Tags : pyclass := PyClass "Tags" [Mongoengine.ListField].
Definition tags_without_element : descriptor :=
  Mongoengine.new Tags ∅ ∅ (Some py_None).

(** [IntField(min_value=0, max_value=10)] *)
Definition bounded_int : descriptor :=
  Mongoengine.new Mongoengine.IntField Mongoengine.number_attrs
    (dict_of [("min_value", VInt 0); ("max_value", VInt 10)]) None.


(** * Vocabulary of the statements *)

(** The kind name [generate] dispatches on. *)
Definition kind (d : descriptor) : string := PyStr.lower (class_name (d_class d)).

(** No [generate_<name>] method; no entry for [name] in [field_map]. *)
Definition no_handler (name : string) : bool :=
  match getattr_self (generate_ name) with Some _ => false | None => true end.

Definition no_alias (s : state) (name : string) : bool :=
  match field_map s !! name with Some _ => false | None => true end.

(** A kind is unrecognized when no handler carries its name or the name
    of one of its base classes, and no base class is in the alias table. *)
Definition unrecognized (s : state) (d : descriptor) : bool :=
  no_handler (kind d) &&
  forallb (fun b => no_handler (PyStr.lower (class_name b)) &&
                    no_alias s (PyStr.lower (class_name b)))
          (class_bases (d_class d)).

(** ** Well-formed descriptors *)

(** The attribute [n] is there and its value passes [p]. *)
Definition attr_ok (d : descriptor) (n : string) (p : value -> bool) : bool :=
  match d_attrs d !! n with
  | Some v => p v
  | None => false
  end.

Definition any_value (v : value) : bool := true.

Definition str_or_none (v : value) : bool :=
  match v with VNone | VStr _ => true | _ => false end.

Definition seq_or_none (v : value) : bool :=
  match v with VNone | VList _ | VTuple _ => true | _ => false end.

(** What every mongoengine field carries ([BaseField.__init__]): a name
    and a help text that are strings or [None], a verbose name, a default,
    a required flag, and choices that are a list, a tuple or [None]. *)
Definition base_field_ok (d : descriptor) : bool :=
  attr_ok d "name" str_or_none && attr_ok d "verbose_name" any_value &&
  attr_ok d "help_text" str_or_none && attr_ok d "default" any_value &&
  attr_ok d "required" any_value && attr_ok d "choices" seq_or_none.

(** The descriptor carries a truthy [regex]. *)
Definition has_regex (d : descriptor) : bool := attr_ok d "regex" truthy.

(** ** Attribute names *)

(** A lower-case letter, a digit or the underscore. *)
Definition snake_char (c : ascii) : bool :=
  let n := nat_of_ascii c in
  (PyStr.is_lower c || (Nat.leb 48 n && Nat.leb n 57) || Nat.eqb n 95)%bool.

(** A name in the usual style of an attribute, such as [first_name]. *)
Fixpoint snake_case (s : string) : bool :=
  match s with
  | EmptyString => true
  | String c r => (snake_char c && snake_case r)%bool
  end.

(** ** What the handlers compute *)

(** The list [get_field_choices] prepends: [include_blank and
    blank_choice or []] with [include_blank] true. *)
Definition first_choice (s : state) : list value :=
  if truthy (VList (BLANK_CHOICE_DASH s)) then BLANK_CHOICE_DASH s else [].

(** What [generate_stringfield] has in [defaults] when it reaches the
    test of [field.regex], given that [field.choices] is truthy. *)
Definition string_defaults (label default required help_text : value) : dict :=
  dict_of [("label", label); ("initial", default);
           ("required", required); ("help_text", help_text)].

(** What the fallback passes for keyword [k] when the caller does not
    override it: an entry exactly when the descriptor has the attribute. *)
Definition charfield_default (d : descriptor) (k : string) : option value :=
  if String.eqb k "required" then d_attrs d !! "required"
  else if String.eqb k "min_length" then d_attrs d !! "min_length"
  else if String.eqb k "max_length" then d_attrs d !! "max_length"
  else if String.eqb k "initial" then d_attrs d !! "default"
  else None.

(** ** Properties of computations *)

(** Whenever [m] returns normally, its result satisfies [Q]. *)
Definition ensures {A} (m : M A) (Q : A -> Prop) : Prop :=
  forall s a s', m s = (Ok a, s') -> Q a.


(** Structural induction on a descriptor and its element. *)
Fixpoint descriptor_elem_ind (P : descriptor -> Prop)
    (Hleaf : forall c a, P (Descriptor c a None))
    (Hnode : forall c a e, P e -> P (Descriptor c a (Some e)))
    (d : descriptor) : P d :=
  match d with
  | Descriptor c a None => Hleaf c a
  | Descriptor c a (Some e) => Hnode c a e (descriptor_elem_ind P Hleaf Hnode e)
  end.

(** ** Vocabulary of the further properties *)

(** The form class of the handlers that build one class whatever the
    descriptor holds; the string, integer, boolean and list handlers
    choose among several. *)
Definition fixed_class (m : method) : option form_class :=
  match m with
  | m_emailfield => Some EmailField
  | m_urlfield => Some URLField
  | m_floatfield => Some FloatField
  | m_decimalfield => Some DecimalField
  | m_datetimefield => Some DateTimeField
  | m_referencefield => Some ReferenceField
  | m_mapfield => Some MapField
  | m_filefield => Some FileField
  | m_imagefield => Some ImageField
  | m_stringfield | m_intfield | m_booleanfield | m_listfield => None
  end.

(** [m] never raises [NotImplementedError]. *)
Definition supported {A} (m : M A) : Prop :=
  forall s s', m s <> (Raise NotImplementedError, s').

(** Wherever [m1] does not raise [NotImplementedError], [m2] does what
    [m1] does. *)
Definition extends {A} (m1 m2 : M A) : Prop :=
  forall s, (exists s', m1 s = (Raise NotImplementedError, s')) \/ m2 s = m1 s.

(** [v is None] *)
Definition is_None (v : value) : bool :=
  match v with VNone => true | _ => false end.

(** The lower-cased name of the first base class, if there is one. *)
Definition first_base_kind (c : pyclass) : option string :=
  match class_bases c with
  | [] => None
  | b :: _ => Some (PyStr.lower (class_name b))
  end.

(** Every handler but the datetime one. *)
Definition reads_help_text (m : method) : bool :=
  match m with m_datetimefield => false | _ => true end.

(** The form field was built from a descriptor that has a [required]
    attribute and, unless the caller overrides it, with that value. *)
Definition passes_required (d : descriptor) (kw : dict) (r : option formfield) : Prop :=
  forall f, r = Some f ->
    exists required,
      d_attrs d !! "required" = Some required /\
      (kw !! "required" = None -> form_kwargs f !! "required" = Some required).

(** The form field got the computed label, and the computed help text
    when [with_help] is set, none otherwise. *)
Definition passes_texts `{DjangoText} (d : descriptor) (kw : dict) (with_help : bool)
    (r : option formfield) : Prop :=
  forall f, r = Some f ->
    (exists label,
        (forall s, get_field_label d s = (Ok label, s)) /\
        (kw !! "label" = None -> form_kwargs f !! "label" = Some label)) /\
    if with_help then
      exists help_text,
        (forall s, get_field_help_text d s = (Ok help_text, s)) /\
        (kw !! "help_text" = None -> form_kwargs f !! "help_text" = Some help_text)
    else
      kw !! "help_text" = None -> form_kwargs f !! "help_text" = None.


(** A descriptor, its element, the element of its element, and so on. *)
Fixpoint element_chain (d : descriptor) : list descriptor :=
  match d with
  | Descriptor c a None => [Descriptor c a None]
  | Descriptor c a (Some e) => Descriptor c a (Some e) :: element_chain e
  end.

(** Some descriptor of the chain is of a kind without a handler of its
    own name. *)
Definition has_unhandled_kind (d : descriptor) : bool :=
  existsb (fun e => no_handler (kind e)) (element_chain d).

(** * Reasoning tools *)

(** ** Running a computation *)

Lemma bind_run {A B} (m : M A) (k : A -> M B) s :
  (m ≫= k) s = match m s with
                | (Ok a, s') => k a s'
                | (Raise e, s') => (Raise e, s')
                end.
Proof. reflexivity. Qed.

Lemma bind_ok {A B} (m : M A) (k : A -> M B) s a s' :
  m s = (Ok a, s') -> (m ≫= k) s = k a s'.
Proof. intros E. rewrite bind_run, E. reflexivity. Qed.

Lemma bind_raise {A B} (m : M A) (k : A -> M B) s e s' :
  m s = (Raise e, s') -> (m ≫= k) s = (Raise e, s').
Proof. intros E. rewrite bind_run, E. reflexivity. Qed.

Lemma getattr_some d n v : d_attrs d !! n = Some v -> getattr d n = mret v.
Proof. intros E. unfold getattr. rewrite E. reflexivity. Qed.

Lemma getattr_none d n : d_attrs d !! n = None -> getattr d n = raise AttributeError.
Proof. intros E. unfold getattr. rewrite E. reflexivity. Qed.


Lemma update_lookup_default (defaults kwargs : dict) k :
  kwargs !! k = None -> update defaults kwargs !! k = defaults !! k.
Proof. intros E. unfold update. apply lookup_union_r, E. Qed.

(** ** Postconditions of normal termination *)

Lemma ensures_ret {A} (a : A) (Q : A -> Prop) : Q a -> ensures (mret a) Q.
Proof. intros HQ s a' s' E. injection E as <- _. exact HQ. Qed.

Lemma ensures_raise {A} e (Q : A -> Prop) : ensures (raise e) Q.
Proof. intros s a s' E. discriminate E. Qed.

Lemma ensures_bind {A B} (m : M A) (k : A -> M B) (Q : B -> Prop) :
  (forall a, ensures (k a) Q) -> ensures (m ≫= k) Q.
Proof.
  intros Hk s b s' E. rewrite bind_run in E.
  destruct (m s) as [[a|e] s1]; [eapply Hk, E | discriminate E].
Qed.

Lemma ensures_try_except {A} (body handler : M A) e (Q : A -> Prop) :
  ensures body Q -> ensures handler Q -> ensures (try_except body e handler) Q.
Proof.
  intros Hb Hh s a s' E. unfold try_except in E.
  destruct (body s) as [[a1|x] s1] eqn:Eb.
  - injection E as <- _. eapply Hb, Eb.
  - destruct (e x); [eapply Hh, E | discriminate E].
Qed.

Ltac ensures_step :=
  match goal with
  | |- ensures (_ ≫= _) _ => apply ensures_bind; intros ?
  | |- ensures (try_except _ _ _) _ => apply ensures_try_except
  | |- ensures (raise _) _ => apply ensures_raise
  | |- ensures (if ?b then _ else _) _ => destruct b
  | |- ensures (match ?x with _ => _ end) _ => destruct x
  end.

Lemma attr_ok_inv d n p :
  attr_ok d n p = true -> exists v, d_attrs d !! n = Some v /\ p v = true.
Proof. unfold attr_ok. destruct (_ !! _) as [v|]; [eauto | discriminate]. Qed.

(** The monad's operations, unfolded. *)
Ltac mstep :=
  cbv beta iota delta [mbind M_bind mret M_ret raise try_except get_state].

Lemma try_except_ok {A} (body handler : M A) e s a s' :
  body s = (Ok a, s') -> try_except body e handler s = (Ok a, s').
Proof. intros E. unfold try_except. rewrite E. reflexivity. Qed.

Section GeneratorFacts.

Context `{DjangoText}.

(** [generate] is its class's method, with [self.generate] tied back. *)
Lemma generate_unfold self d kw :
  generate self d kw =
  match self with
  | MongoFormFieldGenerator =>
      MongoFormFieldGenerator_generate (generate self) d kw
  | MongoDefaultFormFieldGenerator =>
      MongoDefaultFormFieldGenerator_generate (generate self) d kw
  end.
Proof. destruct d; reflexivity. Qed.

(** ** Caller overrides *)








(** ** Running the helpers on a well-formed descriptor *)

Lemma get_field_label_returns d :
  base_field_ok d = true -> exists l, get_field_label d = mret l.
Proof.
  unfold base_field_ok. rewrite !andb_true_iff.
  intros [[[[[Hn Hv] _] _] _] _].
  apply attr_ok_inv in Hn as (n & En & Pn), Hv as (vn & Ev & _).
  unfold get_field_label. rewrite (getattr_some _ _ _ En), (getattr_some _ _ _ Ev).
  destruct (truthy vn) eqn:T.
  - exists vn. mstep. rewrite T. reflexivity.
  - destruct n; try discriminate Pn; eexists; mstep; rewrite T; reflexivity.
Qed.

Lemma get_field_help_text_returns d :
  base_field_ok d = true -> exists h, get_field_help_text d = mret h.
Proof.
  unfold base_field_ok. rewrite !andb_true_iff.
  intros [[[[_ Hh] _] _] _].
  apply attr_ok_inv in Hh as (h & Eh & Ph).
  unfold get_field_help_text. rewrite (getattr_some _ _ _ Eh).
  destruct h as [| | |h| | | | | | | |]; try discriminate Ph.
  - exists VNone. reflexivity.
  - destruct (truthy (VStr h)) eqn:T; eexists; mstep; rewrite T; reflexivity.
Qed.

Lemma base_field_ok_attrs d :
  base_field_ok d = true ->
  exists default required choices,
    d_attrs d !! "default" = Some default /\
    d_attrs d !! "required" = Some required /\
    d_attrs d !! "choices" = Some choices /\
    seq_or_none choices = true.
Proof.
  unfold base_field_ok. rewrite !andb_true_iff.
  intros [[[_ Hd] Hr] Hc].
  apply attr_ok_inv in Hd as (dv & Ed & _), Hr as (r & Er & _), Hc as (c & Ec & Pc).
  eauto 10.
Qed.

Lemma seq_truthy_list choices :
  seq_or_none choices = true -> truthy choices = true ->
  exists l, py_list choices = Some l.
Proof. destruct choices; try discriminate; simpl; eauto. Qed.

(** [get_field_choices] puts the blank choice list in front. *)
Lemma get_field_choices_returns d choices l s :
  d_attrs d !! "choices" = Some choices -> py_list choices = Some l ->
  get_field_choices d true s =
  (Ok (VList ((if truthy (VList (BLANK_CHOICE_DASH s))
               then BLANK_CHOICE_DASH s else []) ++ l)), s).
Proof.
  intros Ec El. unfold get_field_choices.
  rewrite (getattr_some _ _ _ Ec). mstep. unfold list_. rewrite El. reflexivity.
Qed.

(** ** The choice branches of the three scalar handlers *)

Section ChoiceBranches.

Variables (d : descriptor) (kw : dict) (s : state).
Variables (default required choices label help_text : value) (l : list value).
Hypothesis Edefault : d_attrs d !! "default" = Some default.
Hypothesis Erequired : d_attrs d !! "required" = Some required.
Hypothesis Echoices : d_attrs d !! "choices" = Some choices.
Hypothesis Elabel : get_field_label d = mret label.
Hypothesis Ehelp : get_field_help_text d = mret help_text.
Hypothesis Tchoices : truthy choices = true.
Hypothesis Elist : py_list choices = Some l.

Lemma generate_intfield_choices :
  generate_intfield d kw s =
  (Ok (Some (FormField TypedChoiceField []
    (update (dict_of [("coerce", VMethod integer_field_m);
                      ("empty_value", VNone);
                      ("required", required); ("initial", default);
                      ("label", label);
                      ("choices", VList (first_choice s ++ l));
                      ("help_text", help_text)]) kw))), s).
Proof.
  unfold generate_intfield.
  rewrite (getattr_some _ _ _ Echoices), (getattr_some _ _ _ Erequired),
    (getattr_some _ _ _ Edefault), Elabel, Ehelp.
  mstep. rewrite Tchoices. mstep.
  rewrite (get_field_choices_returns _ _ _ _ Echoices Elist). reflexivity.
Qed.

Lemma generate_booleanfield_choices :
  generate_booleanfield d kw s =
  (Ok (Some (FormField TypedChoiceField []
    (update (dict_of [("coerce", VMethod boolean_field_m);
                      ("empty_value", VNone);
                      ("required", required); ("initial", default);
                      ("label", label);
                      ("choices", VList (first_choice s ++ l));
                      ("help_text", help_text)]) kw))), s).
Proof.
  unfold generate_booleanfield.
  rewrite (getattr_some _ _ _ Echoices), (getattr_some _ _ _ Erequired),
    (getattr_some _ _ _ Edefault), Elabel, Ehelp.
  mstep. rewrite Tchoices. mstep.
  rewrite (get_field_choices_returns _ _ _ _ Echoices Elist). reflexivity.
Qed.

Variables max_length regex : value.
Hypothesis Emax_length : d_attrs d !! "max_length" = Some max_length.
Hypothesis Eregex : d_attrs d !! "regex" = Some regex.

Lemma generate_stringfield_choices :
  generate_stringfield d kw s =
  if truthy regex then
    (Ok (Some (FormField MongoCharField []
       (update (<["regex" := regex]>
                  (string_defaults label default required help_text)) kw))), s)
  else
    (Ok (Some (FormField TypedChoiceField []
       (update
          ((if negb (truthy required)
            then <["empty_value" := VNone]> else id)
             (<["coerce" := VMethod string_field_m]>
                (<["choices" := VList (first_choice s ++ l)]>
                   (string_defaults label default required help_text))))
          kw))), s).
Proof.
  unfold generate_stringfield.
  rewrite (getattr_some _ _ _ Echoices), (getattr_some _ _ _ Erequired),
    (getattr_some _ _ _ Edefault), (getattr_some _ _ _ Emax_length),
    (getattr_some _ _ _ Eregex), Elabel, Ehelp.
  mstep. rewrite Tchoices.
  assert (forall s0 : state,
             (if truthy max_length
              then fun s1 : state => (Ok (negb true), s1)
              else fun s1 : state => (Ok false, s1)) s0 = (Ok false, s0)) as ->
    by (intros; destruct (truthy max_length); reflexivity).
  assert (forall s0 : state,
             match max_length with
             | VNone => fun s1 : state => (Ok (negb true), s1)
             | _ => fun s1 : state => (Ok false, s1)
             end s0 = (Ok false, s0)) as ->
    by (intros; destruct max_length; reflexivity).
  destruct (truthy regex); [reflexivity |].
  rewrite (get_field_choices_returns _ _ _ _ Echoices Elist).
  destruct (truthy required); reflexivity.
Qed.

End ChoiceBranches.

(** ** Dispatch on the exact kind name *)

Lemma base_generate_exact sg d kw m :
  getattr_self (generate_ (kind d)) = Some m ->
  MongoFormFieldGenerator_generate sg d kw = call sg m d kw.
Proof.
  intros E. unfold MongoFormFieldGenerator_generate. fold (kind d).
  rewrite E. reflexivity.
Qed.

Lemma generate_exact_ok self d kw m s r s' :
  getattr_self (generate_ (kind d)) = Some m ->
  call (generate self) m d kw s = (Ok r, s') ->
  generate self d kw s = (Ok r, s').
Proof.
  intros E R. rewrite generate_unfold. destruct self.
  - rewrite (base_generate_exact _ _ _ _ E). exact R.
  - unfold MongoDefaultFormFieldGenerator_generate.
    apply try_except_ok. rewrite (base_generate_exact _ _ _ _ E). exact R.
Qed.

(** Everything the choice branches read from a well-formed descriptor
    with truthy choices. *)
Lemma choice_inputs d :
  base_field_ok d = true -> attr_ok d "choices" truthy = true ->
  exists default required choices label help_text l,
    d_attrs d !! "default" = Some default /\
    d_attrs d !! "required" = Some required /\
    d_attrs d !! "choices" = Some choices /\
    get_field_label d = mret label /\
    get_field_help_text d = mret help_text /\
    truthy choices = true /\
    py_list choices = Some l.
Proof.
  intros Hok Hc.
  destruct (base_field_ok_attrs d Hok) as (dv & r & c & Ed & Er & Ec & Pc).
  destruct (get_field_label_returns d Hok) as (lb & El).
  destruct (get_field_help_text_returns d Hok) as (h & Eh).
  unfold attr_ok in Hc. rewrite Ec in Hc.
  destruct (seq_truthy_list c Pc Hc) as (l & Hl).
  exists dv, r, c, lb, h, l. auto 10.
Qed.

(** C3 (amended). An integer or boolean descriptor with non-empty
    choices, and a string descriptor with non-empty choices and no
    regex, yields a [TypedChoiceField] that coerces with the
    generator's method for the kind. *)
Theorem C3_choices_give_choice_field_without_regex self d kw s :
  base_field_ok d = true ->
  attr_ok d "choices" truthy = true ->
  kind d = "intfield" \/ kind d = "booleanfield" \/
    (kind d = "stringfield" /\ attr_ok d "max_length" any_value = true /\
     attr_ok d "regex" any_value = true /\ has_regex d = false) ->
  exists f,
    generate self d kw s = (Ok (Some f), s) /\
    form_cls f = TypedChoiceField /\
    (kw !! "coerce" = None ->
     form_kwargs f !! "coerce" =
     Some (VMethod (if String.eqb (kind d) "intfield" then integer_field_m
                    else if String.eqb (kind d) "booleanfield" then boolean_field_m
                    else string_field_m))).
Proof.
  intros Hok Hc Hkind.
  destruct (choice_inputs d Hok Hc)
    as (dv & r & c & lb & h & l & Ed & Er & Ec & El & Eh & Tc & Hl).
  destruct Hkind as [K | [K | (K & Hm & Hr & Hx)]].
  - eexists. split.
    + eapply generate_exact_ok; [rewrite K; reflexivity |].
      eapply generate_intfield_choices; eassumption.
    + rewrite K. split; [reflexivity |]. intros Hkw. simpl.
      rewrite update_lookup_default by exact Hkw.
      vm_compute. reflexivity.
  - eexists. split.
    + eapply generate_exact_ok; [rewrite K; reflexivity |].
      eapply generate_booleanfield_choices; eassumption.
    + rewrite K. split; [reflexivity |]. intros Hkw. simpl.
      rewrite update_lookup_default by exact Hkw.
      vm_compute. reflexivity.
  - apply attr_ok_inv in Hm as (ml & Em & _), Hr as (rx & Ex & _).
    pose proof (generate_stringfield_choices d kw s dv r c lb h l
                  Ed Er Ec El Eh Tc Hl ml rx Em Ex) as R.
    unfold has_regex, attr_ok in Hx. rewrite Ex in Hx. rewrite Hx in R.
    eexists. split.
    + eapply generate_exact_ok; [rewrite K; reflexivity | exact R].
    + rewrite K. split; [reflexivity |]. intros Hkw. simpl.
      rewrite update_lookup_default by exact Hkw.
      destruct (negb (truthy r)); vm_compute; reflexivity.
Qed.

(** C9. With non-empty choices, the choice field of an integer or
    boolean descriptor gets [empty_value=None] whatever the required
    flag is; the choice field of a string descriptor (one without a
    regex, so that the choices are looked at) gets [empty_value=None]
    when the descriptor is not required, and no [empty_value] at all
    when it is.  The caller is assumed not to override [empty_value]. *)
Theorem C9_empty_value_of_choice_fields self d kw s :
  base_field_ok d = true ->
  attr_ok d "choices" truthy = true ->
  kw !! "empty_value" = None ->
  (kind d = "intfield" \/ kind d = "booleanfield" ->
   exists f, generate self d kw s = (Ok (Some f), s) /\
             form_cls f = TypedChoiceField /\
             form_kwargs f !! "empty_value" = Some VNone) /\
  (kind d = "stringfield" ->
   attr_ok d "max_length" any_value = true ->
   attr_ok d "regex" any_value = true ->
   has_regex d = false ->
   exists f, generate self d kw s = (Ok (Some f), s) /\
             form_cls f = TypedChoiceField /\
             form_kwargs f !! "empty_value" =
             if attr_ok d "required" truthy then None else Some VNone).
Proof.
  intros Hok Hc Hkw.
  destruct (choice_inputs d Hok Hc)
    as (dv & r & c & lb & h & l & Ed & Er & Ec & El & Eh & Tc & Hl).
  split.
  - intros [K | K]; eexists; split.
    + eapply generate_exact_ok; [rewrite K; reflexivity |].
      eapply generate_intfield_choices; eassumption.
    + split; [reflexivity |]. simpl.
      rewrite update_lookup_default by exact Hkw. vm_compute. reflexivity.
    + eapply generate_exact_ok; [rewrite K; reflexivity |].
      eapply generate_booleanfield_choices; eassumption.
    + split; [reflexivity |]. simpl.
      rewrite update_lookup_default by exact Hkw. vm_compute. reflexivity.
  - intros K Hm Hr Hx.
    apply attr_ok_inv in Hm as (ml & Em & _), Hr as (rx & Ex & _).
    pose proof (generate_stringfield_choices d kw s dv r c lb h l
                  Ed Er Ec El Eh Tc Hl ml rx Em Ex) as R.
    unfold has_regex, attr_ok in Hx. rewrite Ex in Hx. rewrite Hx in R.
    unfold attr_ok. rewrite Er.
    eexists. split.
    + eapply generate_exact_ok; [rewrite K; reflexivity | exact R].
    + split; [reflexivity |]. simpl.
      rewrite update_lookup_default by exact Hkw.
      destruct (truthy r); vm_compute; reflexivity.
Qed.

(** C5. A string descriptor with choices [[("a","A"),("b","B")]] and
    [required=False] (and no regex) yields a [TypedChoiceField] whose
    choices are exactly the blank pair followed by the descriptor's
    pairs in their order, and whose empty value is [None]. *)
Theorem C5_string_choices_example self d kw s :
  kind d = "stringfield" ->
  base_field_ok d = true ->
  attr_ok d "max_length" any_value = true ->
  d_attrs d !! "regex" = Some VNone ->
  d_attrs d !! "choices" =
    Some (VList [VTuple [VStr "a"; VStr "A"]; VTuple [VStr "b"; VStr "B"]]) ->
  d_attrs d !! "required" = Some (VBool false) ->
  BLANK_CHOICE_DASH s = BLANK_CHOICE_DASH initial_state ->
  kw !! "choices" = None -> kw !! "empty_value" = None ->
  exists f,
    generate self d kw s = (Ok (Some f), s) /\
    form_cls f = TypedChoiceField /\
    form_kwargs f !! "choices" =
      Some (VList [VTuple [VStr ""; VStr "---------"];
                   VTuple [VStr "a"; VStr "A"]; VTuple [VStr "b"; VStr "B"]]) /\
    form_kwargs f !! "empty_value" = Some VNone.
Proof.
  intros K Hok Hm Ex Ec Er Hs Hkc Hke.
  destruct (base_field_ok_attrs d Hok) as (dv & r & c & Ed & _).
  destruct (get_field_label_returns d Hok) as (lb & El).
  destruct (get_field_help_text_returns d Hok) as (h & Eh).
  apply attr_ok_inv in Hm as (ml & Em & _).
  pose proof (generate_stringfield_choices d kw s dv _ _ lb h _
                Ed Er Ec El Eh eq_refl eq_refl ml _ Em Ex) as R.
  simpl in R. eexists. split.
  - eapply generate_exact_ok; [rewrite K; reflexivity | exact R].
  - split; [reflexivity | split]; simpl.
    + rewrite update_lookup_default by exact Hkc.
      unfold first_choice. rewrite Hs. vm_compute. reflexivity.
    + rewrite update_lookup_default by exact Hke.
      vm_compute. reflexivity.
Qed.

(** ** The lenient fallback *)

Lemma charfield_fallback_returns d kw s required :
  d_attrs d !! "required" = Some required ->
  exists f,
    charfield_fallback d kw s = (Ok (Some f), s) /\
    form_cls f = CharField /\ form_args f = [] /\
    forall k, kw !! k = None -> form_kwargs f !! k = charfield_default d k.
Proof.
  intros Er. unfold charfield_fallback, charfield_default, hasattr, getattr.
  rewrite Er.
  destruct (d_attrs d !! "min_length") as [mn|];
    destruct (d_attrs d !! "max_length") as [mx|];
    destruct (d_attrs d !! "default") as [dv|];
    (eexists; split; [reflexivity |]; split; [reflexivity |];
     split; [reflexivity |]).
  all: intros k Hk; simpl; rewrite update_lookup_default by exact Hk.
  all: unfold dict_of; simpl.
  all: (destruct (String.eqb_spec k "required") as [-> | N1];
        [vm_compute; reflexivity | idtac]).
  all: (destruct (String.eqb_spec k "min_length") as [-> | N2];
        [vm_compute; reflexivity | idtac]).
  all: (destruct (String.eqb_spec k "max_length") as [-> | N3];
        [vm_compute; reflexivity | idtac]).
  all: (destruct (String.eqb_spec k "initial") as [-> | N4];
        [vm_compute; reflexivity | idtac]).
  all: rewrite ?lookup_insert_ne by congruence; apply lookup_empty.
Qed.

Lemma charfield_fallback_raises d kw s e s' :
  charfield_fallback d kw s = (Raise e, s') -> e = AttributeError.
Proof.
  unfold charfield_fallback, hasattr, getattr.
  destruct (d_attrs d !! "required");
    destruct (d_attrs d !! "min_length");
    destruct (d_attrs d !! "max_length");
    destruct (d_attrs d !! "default"); unfold construct; mstep; congruence.
Qed.

Lemma lenient_generate_not_unsupported d kw s :
  fst (generate MongoDefaultFormFieldGenerator d kw s) <> Raise NotImplementedError.
Proof.
  rewrite generate_unfold.
  unfold MongoDefaultFormFieldGenerator_generate, try_except.
  destruct (MongoFormFieldGenerator_generate _ d kw s) as [[r|x] s1]; [discriminate |].
  destruct x; simpl; try discriminate.
  destruct (charfield_fallback d kw s1) as [[r|x] s2] eqn:E; [discriminate |].
  apply charfield_fallback_raises in E as ->. discriminate.
Qed.

(** ** Kinds no handler resolves for *)

(** Neither the kind name nor the first base class resolves. *)
Lemma strict_raises_on_first_base sg d kw s b rest :
  no_handler (kind d) = true ->
  class_bases (d_class d) = b :: rest ->
  no_handler (PyStr.lower (class_name b)) = true ->
  no_alias s (PyStr.lower (class_name b)) = true ->
  MongoFormFieldGenerator_generate sg d kw s = (Raise NotImplementedError, s).
Proof.
  unfold no_handler, no_alias. intros Hk Hb Hh Ha.
  unfold MongoFormFieldGenerator_generate. fold (kind d).
  destruct (getattr_self (generate_ (kind d))); [discriminate |].
  rewrite Hb. unfold try_except, call_by_name.
  destruct (getattr_self (generate_ (PyStr.lower (class_name b)))); [discriminate |].
  mstep. destruct (field_map s !! PyStr.lower (class_name b)); [discriminate |].
  reflexivity.
Qed.

(** C2. The lenient generator never raises [NotImplementedError].  When
    the parent's resolution fails with it, the result is a [CharField]
    with no positional argument whose keyword arguments, where the
    caller does not override them, are [required] and, exactly for those
    of [min_length], [max_length] and [default] the descriptor has,
    [min_length], [max_length] and [initial] with the descriptor's
    values.  The strict generator raises [NotImplementedError] for a
    kind that is unrecognized. *)
Theorem C2_lenient_falls_back_strict_raises d kw s :
  fst (generate MongoDefaultFormFieldGenerator d kw s) <> Raise NotImplementedError /\
  (forall s' required,
      MongoFormFieldGenerator_generate (generate MongoDefaultFormFieldGenerator) d kw s
        = (Raise NotImplementedError, s') ->
      d_attrs d !! "required" = Some required ->
      exists f,
        generate MongoDefaultFormFieldGenerator d kw s = (Ok (Some f), s') /\
        form_cls f = CharField /\ form_args f = [] /\
        forall k, kw !! k = None -> form_kwargs f !! k = charfield_default d k) /\
  (unrecognized s d = true -> class_bases (d_class d) <> [] ->
   generate MongoFormFieldGenerator d kw s = (Raise NotImplementedError, s)).
Proof.
  split; [apply lenient_generate_not_unsupported | split].
  - intros s' required E Er.
    destruct (charfield_fallback_returns d kw s' required Er) as (f & R & P).
    exists f. split; [| exact P].
    rewrite generate_unfold.
    unfold MongoDefaultFormFieldGenerator_generate, try_except.
    rewrite E. exact R.
  - unfold unrecognized. rewrite andb_true_iff. intros [Hk Hb] Hne.
    destruct (class_bases (d_class d)) as [|b rest] eqn:Eb; [congruence |].
    simpl in Hb. rewrite !andb_true_iff in Hb. destruct Hb as [[Hh Ha] _].
    rewrite generate_unfold.
    eapply strict_raises_on_first_base; eassumption.
Qed.

(** C1 (what the code does).  The strict [generate] gives up at the
    first base class: when neither the descriptor's own kind name nor
    its first base class has a handler and the first base class is not
    in the alias table, it raises [NotImplementedError] whatever the
    remaining base classes are, also when one of them has a handler. *)
Theorem C1_only_first_base_is_tried d kw s b rest :
  no_handler (kind d) = true ->
  class_bases (d_class d) = b :: rest ->
  no_handler (PyStr.lower (class_name b)) = true ->
  no_alias s (PyStr.lower (class_name b)) = true ->
  generate MongoFormFieldGenerator d kw s = (Raise NotImplementedError, s).
Proof.
  intros. rewrite generate_unfold.
  eapply strict_raises_on_first_base; eassumption.
Qed.

(** ** Lists *)




(** ** Label, help text, boolean coercion *)

(** [py_in v EMPTY_VALUES] holds for the five empty values and no other. *)
Lemma py_in_EMPTY_VALUES v : py_in v EMPTY_VALUES = true <-> In v EMPTY_VALUES.
Proof.
  split.
  - destruct v as [| b | n | str | l | l | l | m | w | nm | nm | i ]; simpl;
      try discriminate; try tauto.
    + destruct str; simpl; [tauto | discriminate].
    + destruct l; simpl; [tauto | discriminate].
    + destruct l; simpl; [tauto | discriminate].
    + destruct l as [| [k x] l]; simpl; [tauto | discriminate].
  - simpl. intros [<- | [<- | [<- | [<- | [<- | []]]]]]; reflexivity.
Qed.

(** C10. [boolean_field] maps each empty value ([None], the empty
    string, the empty list, tuple and dict) to [None], and every other
    string to [True] exactly when it lower-cases to ["true"], to [False]
    otherwise. *)
Theorem C10_boolean_field_coercion v s :
  (In v EMPTY_VALUES -> boolean_field v s = (Ok VNone, s)) /\
  (forall str, v = VStr str -> str <> "" ->
     boolean_field v s = (Ok (VBool (String.eqb (PyStr.lower str) "true")), s)).
Proof.
  split.
  - intros Hin. apply py_in_EMPTY_VALUES in Hin.
    unfold boolean_field. rewrite Hin. reflexivity.
  - intros str -> Hne. unfold boolean_field.
    destruct (py_in (VStr str) EMPTY_VALUES) eqn:E; [| reflexivity].
    apply py_in_EMPTY_VALUES in E. simpl in E.
    destruct E as [E | [E | [E | [E | [E | []]]]]]; try discriminate E.
    congruence.
Qed.

End GeneratorFacts.

(** * Further properties of the generator *)

Lemma ensures_bind_with {A B} (m : M A) (k : A -> M B) (P : A -> Prop) (Q : B -> Prop) :
  ensures m P -> (forall a, P a -> ensures (k a) Q) -> ensures (m ≫= k) Q.
Proof.
  intros Hm Hk s b s' E. rewrite bind_run in E.
  destruct (m s) as [[a|e] s1] eqn:Em; [| discriminate E].
  eapply Hk; [eapply Hm, Em | exact E].
Qed.

Lemma ensures_getattr d n : ensures (getattr d n) (fun v => d_attrs d !! n = Some v).
Proof.
  intros s a s' E. unfold getattr in E.
  destruct (d_attrs d !! n); [injection E as <- _; reflexivity | discriminate E].
Qed.


Section FurtherFacts.

Context `{DjangoText}.

(** ** What every handler passes on *)

(** A postcondition of every handler is one of the strict [generate],
    which also returns [None] for a class without base classes. *)
Lemma base_generate_ensures sg d kw (Q : option formfield -> Prop) :
  (no_handler (kind d) = true -> class_bases (d_class d) = [] -> Q None) ->
  (forall m, ensures (call sg m d kw) Q) ->
  ensures (MongoFormFieldGenerator_generate sg d kw) Q.
Proof.
  intros HN Hcall. unfold MongoFormFieldGenerator_generate.
  assert (forall name, ensures (call_by_name sg name d kw) Q) as Hname.
  { intros name. unfold call_by_name.
    destruct (getattr_self name); [apply Hcall | apply ensures_raise]. }
  fold (kind d). unfold no_handler in HN.
  destruct (getattr_self (generate_ (kind d))); [apply Hcall |].
  destruct (class_bases _) as [|cls bases]; [apply ensures_ret; auto |].
  apply ensures_try_except; [apply Hname |].
  apply ensures_bind; intros s.
  destruct (_ !! _); [apply Hname | apply ensures_raise].
Qed.

(** One step of a walk through a handler that records what
    [field.required] evaluated to. *)
Ltac required_step :=
  match goal with
  | |- ensures (getattr ?d "required" ≫= _) _ =>
      eapply ensures_bind_with;
      [apply ensures_getattr | let R := fresh "R" in intros ? R; cbv beta in R]
  | |- ensures (construct _ _ _ _) _ =>
      apply ensures_ret; intros ? [= <-]; simpl form_kwargs
  | |- ensures (mret None) _ => apply ensures_ret; intros ? [=]
  | _ => ensures_step
  end.

(** The entry of a dict built from literals and insertions. *)
Ltac lookup_in_defaults :=
  repeat match goal with
         | |- context [if ?b then _ else _] => destruct b
         end;
  vm_compute; reflexivity.

Ltac merge_required d :=
  repeat match goal with
         | R1 : d_attrs d !! "required" = Some ?a,
           R2 : d_attrs d !! "required" = Some ?b |- _ =>
             assert (b = a) as -> by congruence; clear R2
         end.

Lemma call_passes_required sg m d kw :
  ensures (call sg m d kw) (passes_required d kw).
Proof.
  unfold passes_required.
  destruct m; cbv beta delta [call] iota;
    [ unfold generate_stringfield | unfold generate_emailfield
    | unfold generate_urlfield | unfold generate_intfield
    | unfold generate_floatfield | unfold generate_decimalfield
    | unfold generate_booleanfield | unfold generate_datetimefield
    | unfold generate_referencefield | unfold generate_listfield
    | unfold generate_mapfield | unfold generate_filefield
    | unfold generate_imagefield ];
    repeat required_step; merge_required d;
    (eexists; split; [eassumption |]); intros Hk;
    rewrite update_lookup_default by exact Hk; lookup_in_defaults.
Qed.

Lemma charfield_fallback_passes_required d kw :
  ensures (charfield_fallback d kw) (passes_required d kw).
Proof.
  intros s r s' E f ->.
  destruct (d_attrs d !! "required") as [required|] eqn:R.
  - destruct (charfield_fallback_returns d kw s required R) as (f' & E' & _ & _ & K).
    rewrite E' in E. injection E as -> _.
    exists required. split; [reflexivity |]. intros Hk.
    rewrite (K _ Hk). unfold charfield_default. simpl. exact R.
  - unfold charfield_fallback, getattr in E. rewrite R in E. discriminate E.
Qed.

(** X1. Whatever the kind and whichever generator: a form field is only
    ever built from a descriptor that has a [required] attribute, and its
    [required] argument is the descriptor's value unless the caller
    overrides it. *)
Theorem generate_passes_required self d kw s f s' :
  generate self d kw s = (Ok (Some f), s') ->
  exists required,
    d_attrs d !! "required" = Some required /\
    (kw !! "required" = None -> form_kwargs f !! "required" = Some required).
Proof.
  intros E. rewrite generate_unfold in E.
  assert (ensures (MongoFormFieldGenerator_generate (generate self) d kw)
            (passes_required d kw)) as Hbase.
  { apply base_generate_ensures;
      [intros _ _ f0 [=] | intros m; apply call_passes_required]. }
  destruct self.
  - exact (Hbase _ _ _ E f eq_refl).
  - unfold MongoDefaultFormFieldGenerator_generate in E.
    assert (ensures (try_except
                       (MongoFormFieldGenerator_generate
                          (generate MongoDefaultFormFieldGenerator) d kw)
                       is_NotImplementedError (charfield_fallback d kw))
              (passes_required d kw)) as Hall
      by (apply ensures_try_except;
          [exact Hbase | apply charfield_fallback_passes_required]).
    exact (Hall _ _ _ E f eq_refl).
Qed.

(** ** Handlers never raise [NotImplementedError] themselves *)

Lemma supported_ret {A} (a : A) : supported (mret a).
Proof. intros s s' E. discriminate E. Qed.

Lemma supported_raise_AttributeError {A} : supported (@raise A AttributeError).
Proof. intros s s' E. discriminate E. Qed.

Lemma supported_raise_TypeError {A} : supported (@raise A TypeError).
Proof. intros s s' E. discriminate E. Qed.

Lemma supported_get_state : supported get_state.
Proof. intros s s' E. discriminate E. Qed.

Lemma supported_bind {A B} (m : M A) (k : A -> M B) :
  supported m -> (forall a, supported (k a)) -> supported (m ≫= k).
Proof.
  intros Hm Hk s s' E. rewrite bind_run in E.
  destruct (m s) as [[a|e] s1] eqn:Em; [exact (Hk a s1 s' E) |].
  injection E as -> ->. exact (Hm s s' Em).
Qed.

Lemma supported_getattr d n : supported (getattr d n).
Proof.
  unfold getattr.
  destruct (_ !! _); [apply supported_ret | apply supported_raise_AttributeError].
Qed.

Lemma supported_objects v : supported (objects v).
Proof.
  destruct v; first [apply supported_ret | apply supported_raise_AttributeError].
Qed.

Lemma supported_list_ v : supported (list_ v).
Proof.
  unfold list_.
  destruct (py_list v); [apply supported_ret | apply supported_raise_TypeError].
Qed.

Create HintDb supported.
#[local] Hint Resolve supported_ret supported_raise_AttributeError
  supported_raise_TypeError supported_get_state supported_getattr
  supported_objects supported_list_ : supported.

Ltac supported_step :=
  match goal with
  | |- supported (_ ≫= _) => apply supported_bind; [| intros ?]
  | |- supported (if ?b then _ else _) => destruct b
  | |- supported (match ?x with _ => _ end) => destruct x
  | |- supported _ => solve [auto with supported]
  end.

Lemma supported_get_field_choices d b : supported (get_field_choices d b).
Proof. unfold get_field_choices. repeat supported_step. Qed.

Lemma supported_get_field_label d : supported (get_field_label d).
Proof. unfold get_field_label. repeat supported_step. Qed.

Lemma supported_get_field_help_text d : supported (get_field_help_text d).
Proof. unfold get_field_help_text. repeat supported_step. Qed.

Lemma supported_construct c args defaults kwargs :
  supported (construct c args defaults kwargs).
Proof. apply supported_ret. Qed.

#[local] Hint Resolve supported_get_field_choices supported_get_field_label
  supported_get_field_help_text supported_construct : supported.

Lemma supported_call sg m d kw :
  (forall e kw', d_field d = Some e -> supported (sg e kw')) ->
  supported (call sg m d kw).
Proof.
  intros Hsg.
  destruct m; cbv beta delta [call] iota;
    [ unfold generate_stringfield | unfold generate_emailfield
    | unfold generate_urlfield | unfold generate_intfield
    | unfold generate_floatfield | unfold generate_decimalfield
    | unfold generate_booleanfield | unfold generate_datetimefield
    | unfold generate_referencefield | unfold generate_listfield
    | unfold generate_mapfield | unfold generate_filefield
    | unfold generate_imagefield ];
    try (destruct (d_field d) as [e|] eqn:E; [specialize (Hsg e) |]);
    repeat first [ solve [apply Hsg; reflexivity] | supported_step ].
Qed.

Lemma supported_lenient_generate d kw :
  supported (generate MongoDefaultFormFieldGenerator d kw).
Proof.
  intros s s' E. apply (lenient_generate_not_unsupported d kw s).
  rewrite E. reflexivity.
Qed.

(** With a handler under the descriptor's own kind name, either
    generator does what the handler does: the lenient fallback is not
    reached, errors of the handler included. *)
Lemma generate_exact self d kw m :
  getattr_self (generate_ (kind d)) = Some m ->
  forall s, generate self d kw s = call (generate self) m d kw s.
Proof.
  intros E s. rewrite generate_unfold. destruct self.
  - rewrite (base_generate_exact _ _ _ _ E). reflexivity.
  - unfold MongoDefaultFormFieldGenerator_generate, try_except.
    rewrite (base_generate_exact _ _ _ _ E).
    destruct (call _ m d kw s) as [[r|x] s1] eqn:Ec; [reflexivity |].
    destruct x; try reflexivity.
    exfalso. eapply supported_call; [| exact Ec].
    intros e kw' _. apply supported_lenient_generate.
Qed.

(** ** Kinds whose form class is fixed *)

Lemma call_fixed_class sg m d kw c :
  fixed_class m = Some c ->
  ensures (call sg m d kw)
    (fun r => exists f, r = Some f /\ form_cls f = c /\
                        (kw !! "choices" = None -> form_kwargs f !! "choices" = None)).
Proof.
  intros Hc.
  destruct m; try discriminate Hc; injection Hc as <-;
    cbv beta delta [call] iota;
    [ unfold generate_emailfield | unfold generate_urlfield
    | unfold generate_floatfield | unfold generate_decimalfield
    | unfold generate_datetimefield | unfold generate_referencefield
    | unfold generate_mapfield | unfold generate_filefield
    | unfold generate_imagefield ];
    repeat ensures_step;
    apply ensures_ret; eexists; (split; [reflexivity |]);
    (split; [reflexivity |]); intros Hk; simpl form_kwargs;
    rewrite update_lookup_default by exact Hk; vm_compute; reflexivity.
Qed.

(** X2. For an email, URL, float, decimal, datetime, reference, map, file
    or image descriptor, whenever [generate] returns it returns a form
    field of the one class of that kind, also when the descriptor
    carries choices, and passes no [choices] argument of its own. *)
Theorem fixed_class_kinds_ignore_choices self d kw s m c r s' :
  getattr_self (generate_ (kind d)) = Some m ->
  fixed_class m = Some c ->
  generate self d kw s = (Ok r, s') ->
  exists f, r = Some f /\ form_cls f = c /\
            (kw !! "choices" = None -> form_kwargs f !! "choices" = None).
Proof.
  intros Hm Hc E. rewrite (generate_exact _ _ _ _ Hm) in E.
  exact (call_fixed_class _ _ _ _ _ Hc _ _ _ E).
Qed.

(** ** Label and help text of every handler *)

Lemma ensures_get_field_label d :
  ensures (get_field_label d) (fun l => forall s, get_field_label d s = (Ok l, s)).
Proof.
  intros s l s' E s0. unfold get_field_label, getattr in *.
  destruct (d_attrs d !! "verbose_name") as [vn|]; [| discriminate E].
  revert E. mstep. destruct (truthy vn); [intros [= <- _]; reflexivity |].
  destruct (d_attrs d !! "name") as [[]|]; intros [= <- _] || intros [=]; reflexivity.
Qed.

Lemma ensures_get_field_help_text d :
  ensures (get_field_help_text d)
    (fun h => forall s, get_field_help_text d s = (Ok h, s)).
Proof.
  intros s h s' E s0. unfold get_field_help_text, getattr in *.
  destruct (d_attrs d !! "help_text") as [ht|]; [| discriminate E].
  revert E. mstep. destruct (truthy ht); [| intros [= <- _]; reflexivity].
  destruct ht; intros [= <- _] || intros [=]; reflexivity.
Qed.

(** One step of a walk through a handler that records what the label
    and the help text evaluated to. *)
Ltac text_step :=
  match goal with
  | |- ensures (get_field_label ?d ≫= _) _ =>
      eapply ensures_bind_with;
      [apply ensures_get_field_label
      | let L := fresh "L" in intros ? L; cbv beta in L]
  | |- ensures (get_field_help_text ?d ≫= _) _ =>
      eapply ensures_bind_with;
      [apply ensures_get_field_help_text
      | let T := fresh "T" in intros ? T; cbv beta in T]
  | |- ensures (construct _ _ _ _) _ =>
      apply ensures_ret; intros ? [= <-]; simpl form_kwargs
  | |- ensures (mret None) _ => apply ensures_ret; intros ? [=]
  | _ => ensures_step
  end.

Lemma call_passes_texts sg m d kw :
  ensures (call sg m d kw) (passes_texts d kw (reads_help_text m)).
Proof.
  unfold passes_texts.
  destruct m; cbv beta delta [call reads_help_text] iota;
    [ unfold generate_stringfield | unfold generate_emailfield
    | unfold generate_urlfield | unfold generate_intfield
    | unfold generate_floatfield | unfold generate_decimalfield
    | unfold generate_booleanfield | unfold generate_datetimefield
    | unfold generate_referencefield | unfold generate_listfield
    | unfold generate_mapfield | unfold generate_filefield
    | unfold generate_imagefield ];
    repeat text_step;
    (split;
     [ eexists; split; [eassumption |]; intros Hk;
       rewrite update_lookup_default by exact Hk; lookup_in_defaults
     | first [ eexists; split; [eassumption |]; intros Hk;
               rewrite update_lookup_default by exact Hk; lookup_in_defaults
             | intros Hk; rewrite update_lookup_default by exact Hk;
               lookup_in_defaults ] ]).
Qed.

(** X3. For a kind with a handler of its own, every form field either
    generator builds gets the label computed by [get_field_label] and,
    with one exception, the help text computed by [get_field_help_text],
    unless the caller overrides them; the exception is the datetime kind,
    whose form field gets no help text at all. *)
Theorem generate_passes_label_and_help_text self d kw s m f s' :
  getattr_self (generate_ (kind d)) = Some m ->
  generate self d kw s = (Ok (Some f), s') ->
  (exists label,
      (forall s0, get_field_label d s0 = (Ok label, s0)) /\
      (kw !! "label" = None -> form_kwargs f !! "label" = Some label)) /\
  if reads_help_text m then
    exists help_text,
      (forall s0, get_field_help_text d s0 = (Ok help_text, s0)) /\
      (kw !! "help_text" = None -> form_kwargs f !! "help_text" = Some help_text)
  else
    kw !! "help_text" = None -> form_kwargs f !! "help_text" = None.
Proof.
  intros Hm E. rewrite (generate_exact _ _ _ _ Hm) in E.
  exact (call_passes_texts _ _ _ _ _ _ _ E f eq_refl).
Qed.

(** ** When [generate] returns [None] *)



(** ** The lenient generator extends the strict one *)

Lemma extends_refl {A} (m : M A) : extends m m.
Proof. intros s. right. reflexivity. Qed.

Lemma extends_bind_l {A B} (m1 m2 : M A) (k : A -> M B) :
  extends m1 m2 -> extends (m1 ≫= k) (m2 ≫= k).
Proof.
  intros Hm s. rewrite !bind_run. destruct (Hm s) as [(s' & E) | E].
  - left. exists s'. rewrite E. reflexivity.
  - right. rewrite E. reflexivity.
Qed.

Lemma extends_bind_r {A B} (m : M A) (k1 k2 : A -> M B) :
  (forall a, extends (k1 a) (k2 a)) -> extends (m ≫= k1) (m ≫= k2).
Proof.
  intros Hk s. rewrite !bind_run.
  destruct (m s) as [[a|e] s1]; [apply Hk | right; reflexivity].
Qed.

Lemma extends_try_except_AttributeError {A} (b1 b2 h1 h2 : M A) :
  extends b1 b2 -> extends h1 h2 ->
  extends (try_except b1 is_AttributeError h1) (try_except b2 is_AttributeError h2).
Proof.
  intros Hb Hh s. unfold try_except. destruct (Hb s) as [(s' & E) | E].
  - left. exists s'. rewrite E. reflexivity.
  - rewrite E. destruct (b1 s) as [[a|x] s1]; [right; reflexivity |].
    destruct (is_AttributeError x); [apply Hh | right; reflexivity].
Qed.

Ltac extends_step :=
  match goal with
  | |- extends ?m ?m => apply extends_refl
  | |- extends (?m ≫= _) (?m ≫= _) => apply extends_bind_r; intros ?
  | |- extends (_ ≫= ?k) (_ ≫= ?k) => apply extends_bind_l
  | |- extends (if ?b then _ else _) (if ?b then _ else _) => destruct b
  | |- extends (match ?x with _ => _ end) (match ?x with _ => _ end) => destruct x
  end.

Lemma extends_call sg1 sg2 m d kw :
  (forall e kw', d_field d = Some e -> extends (sg1 e kw') (sg2 e kw')) ->
  extends (call sg1 m d kw) (call sg2 m d kw).
Proof.
  intros Hsg. destruct m; try apply extends_refl; cbv beta delta [call] iota.
  - unfold generate_listfield.
    destruct (d_field d) as [e|]; [| apply extends_refl].
    specialize (Hsg e). repeat first [apply Hsg; reflexivity | extends_step].
  - unfold generate_mapfield.
    destruct (d_field d) as [e|]; [| apply extends_refl].
    specialize (Hsg e). repeat first [apply Hsg; reflexivity | extends_step].
Qed.

Lemma extends_base_generate sg1 sg2 d kw :
  (forall e kw', d_field d = Some e -> extends (sg1 e kw') (sg2 e kw')) ->
  extends (MongoFormFieldGenerator_generate sg1 d kw)
          (MongoFormFieldGenerator_generate sg2 d kw).
Proof.
  intros Hsg. unfold MongoFormFieldGenerator_generate.
  assert (forall name, extends (call_by_name sg1 name d kw) (call_by_name sg2 name d kw))
    as Hname.
  { intros name. unfold call_by_name.
    destruct (getattr_self name); [apply extends_call, Hsg | apply extends_refl]. }
  destruct (getattr_self _); [apply extends_call, Hsg |].
  destruct (class_bases _) as [|cls bases]; [apply extends_refl |].
  apply extends_try_except_AttributeError; [apply Hname |].
  apply extends_bind_r. intros s.
  destruct (_ !! _); [apply Hname | apply extends_refl].
Qed.

Lemma extends_lenient_wrapper {A} (b1 b2 h : M A) :
  extends b1 b2 -> extends b1 (try_except b2 is_NotImplementedError h).
Proof.
  intros Hb s. destruct (Hb s) as [L | R]; [left; exact L |].
  unfold try_except. rewrite R.
  destruct (b1 s) as [[r|x] s1] eqn:E; [right; reflexivity |].
  destruct x; simpl; [right; reflexivity | left; eauto | right; reflexivity].
Qed.

Lemma extends_generate d :
  forall kw, extends (generate MongoFormFieldGenerator d kw)
                     (generate MongoDefaultFormFieldGenerator d kw).
Proof.
  induction d as [c a | c a e IH] using descriptor_elem_ind; intros kw;
    rewrite (generate_unfold MongoFormFieldGenerator),
            (generate_unfold MongoDefaultFormFieldGenerator);
    unfold MongoDefaultFormFieldGenerator_generate;
    apply extends_lenient_wrapper, extends_base_generate; simpl;
    intros e' kw' E; try discriminate E; injection E as <-; apply IH.
Qed.

(** X5. The lenient generator extends the strict one: on every
    descriptor, however deeply nested, either the strict generator raises
    [NotImplementedError] or the lenient generator does exactly what the
    strict one does, returning the same form field or raising the same
    exception. *)
Theorem lenient_extends_strict d kw s :
  (exists s', generate MongoFormFieldGenerator d kw s = (Raise NotImplementedError, s')) \/
  generate MongoDefaultFormFieldGenerator d kw s = generate MongoFormFieldGenerator d kw s.
Proof. apply extends_generate. Qed.

(** ** Resolution through the first base class *)

Lemma base_generate_first_base sg d kw s b rest m :
  no_handler (kind d) = true ->
  class_bases (d_class d) = b :: rest ->
  getattr_self (generate_ (PyStr.lower (class_name b))) = Some m ->
  MongoFormFieldGenerator_generate sg d kw s =
  match call sg m d kw s with
  | (Raise AttributeError, s') =>
      match field_map s' !! PyStr.lower (class_name b) with
      | Some name => call_by_name sg name d kw s'
      | None => (Raise NotImplementedError, s')
      end
  | r => r
  end.
Proof.
  unfold no_handler. intros Hk Hb Hm.
  unfold MongoFormFieldGenerator_generate. fold (kind d).
  destruct (getattr_self (generate_ (kind d))); [discriminate |].
  rewrite Hb. unfold try_except, call_by_name. rewrite Hm.
  destruct (call sg m d kw s) as [[r|[]] s1]; try reflexivity.
  simpl is_AttributeError. mstep.
  destruct (field_map s1 !! PyStr.lower (class_name b)); reflexivity.
Qed.

(** X6. An instance of a subclass of a supported kind is handled by the
    handler of its first base class: when the descriptor's own kind has
    no handler and its first base class has one, the strict [generate]
    ends as that handler does, unless the handler raises
    [AttributeError]. *)
Theorem subclass_resolves_through_first_base d kw s b rest m o s' :
  no_handler (kind d) = true ->
  class_bases (d_class d) = b :: rest ->
  getattr_self (generate_ (PyStr.lower (class_name b))) = Some m ->
  call (generate MongoFormFieldGenerator) m d kw s = (o, s') ->
  o <> Raise AttributeError ->
  generate MongoFormFieldGenerator d kw s = (o, s').
Proof.
  intros Hk Hb Hm E Ho. rewrite generate_unfold.
  rewrite (base_generate_first_base _ _ _ _ _ _ _ Hk Hb Hm), E.
  destruct o as [r|[]]; try reflexivity. congruence.
Qed.

(** X7. An [AttributeError] raised inside the handler of the first base
    class is taken for a missing handler: with the base class not in the
    alias table, the strict generator raises [NotImplementedError]
    instead, and the lenient generator answers with its fallback
    [CharField]. *)
Theorem attribute_error_of_base_handler_is_masked self d kw s b rest m s' :
  no_handler (kind d) = true ->
  class_bases (d_class d) = b :: rest ->
  getattr_self (generate_ (PyStr.lower (class_name b))) = Some m ->
  call (generate self) m d kw s = (Raise AttributeError, s') ->
  no_alias s' (PyStr.lower (class_name b)) = true ->
  generate self d kw s =
  match self with
  | MongoFormFieldGenerator => (Raise NotImplementedError, s')
  | MongoDefaultFormFieldGenerator => charfield_fallback d kw s'
  end.
Proof.
  intros Hk Hb Hm E Ha. unfold no_alias in Ha.
  assert (MongoFormFieldGenerator_generate (generate self) d kw s
          = (Raise NotImplementedError, s')) as Eb.
  { rewrite (base_generate_first_base _ _ _ _ _ _ _ Hk Hb Hm), E.
    destruct (field_map s' !! _); [discriminate | reflexivity]. }
  rewrite generate_unfold. destruct self; [exact Eb |].
  unfold MongoDefaultFormFieldGenerator_generate, try_except.
  rewrite Eb. reflexivity.
Qed.

(** X8. The alias table at work: with the [field_map] the module starts
    with, an instance of a class whose first base class is named
    [SortedListField], and whose own name has no handler, is handled by
    [generate_listfield], by either generator. *)
Theorem sorted_list_subclass_uses_list_handler self d kw s b rest :
  no_handler (kind d) = true ->
  class_bases (d_class d) = b :: rest ->
  PyStr.lower (class_name b) = "sortedlistfield" ->
  field_map s = field_map initial_state ->
  generate self d kw s = generate_listfield (generate self) d kw s.
Proof.
  unfold no_handler. intros Hk Hb Hn Hs.
  assert (MongoFormFieldGenerator_generate (generate self) d kw s
          = generate_listfield (generate self) d kw s) as Eb.
  { unfold MongoFormFieldGenerator_generate. fold (kind d).
    destruct (getattr_self (generate_ (kind d))); [discriminate |].
    rewrite Hb, Hn. unfold try_except, call_by_name.
    change (getattr_self (generate_ "sortedlistfield")) with (@None method).
    mstep. simpl is_AttributeError. cbv iota. rewrite Hs.
    assert (field_map initial_state !! "sortedlistfield" = Some "generate_listfield")
      as -> by (vm_compute; reflexivity).
    reflexivity. }
  rewrite generate_unfold. destruct self; [exact Eb |].
  unfold MongoDefaultFormFieldGenerator_generate, try_except. rewrite Eb.
  destruct (generate_listfield _ d kw s) as [[r|x] s1] eqn:E; [reflexivity |].
  destruct x; try reflexivity.
  exfalso. eapply (supported_call _ m_listfield); [| exact E].
  intros e kw' _. apply supported_lenient_generate.
Qed.

(** ** The plain branches of the string and integer handlers *)

Section PlainBranches.

Variables (d : descriptor) (kw : dict) (s : state).
Variables (default required choices label help_text : value).
Hypothesis Edefault : d_attrs d !! "default" = Some default.
Hypothesis Erequired : d_attrs d !! "required" = Some required.
Hypothesis Echoices : d_attrs d !! "choices" = Some choices.
Hypothesis Elabel : get_field_label d = mret label.
Hypothesis Ehelp : get_field_help_text d = mret help_text.
Hypothesis Tchoices : truthy choices = false.

Lemma generate_stringfield_plain max_length regex :
  d_attrs d !! "max_length" = Some max_length ->
  d_attrs d !! "regex" = Some regex ->
  generate_stringfield d kw s =
  (Ok (Some (FormField MongoCharField []
     (update
        ((if truthy regex then <["regex" := regex]> else id)
           ((if is_None max_length then <["widget" := VWidget Textarea]> else id)
              ((if truthy max_length then <["max_length" := max_length]> else id)
                 (string_defaults label default required help_text))))
        kw))), s).
Proof.
  intros Emax_length Eregex. unfold generate_stringfield.
  rewrite (getattr_some _ _ _ Echoices), (getattr_some _ _ _ Erequired),
    (getattr_some _ _ _ Edefault), (getattr_some _ _ _ Emax_length),
    (getattr_some _ _ _ Eregex), Elabel, Ehelp.
  mstep. rewrite Tchoices.
  destruct max_length; simpl truthy; simpl is_None; cbv iota;
    try match goal with |- context [negb (?x =? ?y)%Z] => destruct (x =? y)%Z end;
    try match goal with |- context [negb (String.eqb ?x ?y)] =>
                          destruct (String.eqb x y) end;
    try match goal with |- context [negb (Nat.eqb ?x ?y)] =>
                          destruct (Nat.eqb x y) end;
    try match goal with |- context [if ?b then _ else _] =>
                          match b with truthy regex => fail 1 | _ => destruct b end
        end;
    simpl negb; cbv iota; destruct (truthy regex); reflexivity.
Qed.

Lemma generate_intfield_plain min_value max_value :
  d_attrs d !! "min_value" = Some min_value ->
  d_attrs d !! "max_value" = Some max_value ->
  generate_intfield d kw s =
  (Ok (Some (FormField IntegerField []
     (update (dict_of [("required", required); ("min_value", min_value);
                       ("max_value", max_value); ("initial", default);
                       ("label", label); ("help_text", help_text)]) kw))), s).
Proof.
  intros Emin Emax. unfold generate_intfield.
  rewrite (getattr_some _ _ _ Echoices), (getattr_some _ _ _ Erequired),
    (getattr_some _ _ _ Edefault), (getattr_some _ _ _ Emin),
    (getattr_some _ _ _ Emax), Elabel, Ehelp.
  mstep. rewrite Tchoices. reflexivity.
Qed.

End PlainBranches.

(** X9. What the form field of a string descriptor without a regex gets
    besides the common arguments: a [Textarea] widget exactly when
    [max_length] is [None] and there are no choices, and a [max_length]
    argument exactly when [max_length] is truthy and there are no
    choices (so a [max_length] of [0] gives neither); with choices it
    gets neither, and without choices it is a [MongoCharField]. *)
Theorem string_field_widget_and_max_length self d kw s max_length choices :
  kind d = "stringfield" ->
  base_field_ok d = true ->
  attr_ok d "regex" any_value = true ->
  has_regex d = false ->
  d_attrs d !! "max_length" = Some max_length ->
  d_attrs d !! "choices" = Some choices ->
  exists f,
    generate self d kw s = (Ok (Some f), s) /\
    (truthy choices = false -> form_cls f = MongoCharField) /\
    (kw !! "widget" = None ->
     form_kwargs f !! "widget" =
     if is_None max_length && negb (truthy choices)
     then Some (VWidget Textarea) else None) /\
    (kw !! "max_length" = None ->
     form_kwargs f !! "max_length" =
     if truthy max_length && negb (truthy choices) then Some max_length else None).
Proof.
  intros K Hok Hr Hnr Em Ec.
  destruct (base_field_ok_attrs d Hok) as (dv & r & c & Ed & Er & Ec' & Pc).
  rewrite Ec in Ec'. injection Ec' as <-.
  destruct (get_field_label_returns d Hok) as (lb & El).
  destruct (get_field_help_text_returns d Hok) as (h & Eh).
  apply attr_ok_inv in Hr as (rx & Ex & _).
  unfold has_regex, attr_ok in Hnr. rewrite Ex in Hnr.
  assert (getattr_self (generate_ (kind d)) = Some m_stringfield) as Hm
      by (rewrite K; reflexivity).
  destruct (truthy choices) eqn:Tc.
  - destruct (seq_truthy_list choices Pc Tc) as (l & Hl).
    pose proof (generate_stringfield_choices d kw s dv r choices lb h l
                  Ed Er Ec El Eh Tc Hl max_length rx Em Ex) as R.
    rewrite !andb_false_r. rewrite Hnr in R.
    eexists;
      (split; [eapply generate_exact_ok; [exact Hm | exact R] |]);
      (split; [discriminate |]);
      split; intros Hk; simpl form_kwargs;
      rewrite update_lookup_default by exact Hk;
      try destruct (negb (truthy r)); vm_compute; reflexivity.
  - pose proof (generate_stringfield_plain d kw s dv r choices lb h
                  Ed Er Ec El Eh Tc max_length rx Em Ex) as R.
    rewrite Hnr in R. rewrite !andb_true_r.
    eexists. split; [eapply generate_exact_ok; [exact Hm | exact R] |].
    split; [reflexivity |].
    split; intros Hk; simpl form_kwargs;
      rewrite update_lookup_default by exact Hk;
      destruct (is_None max_length), (truthy max_length);
      vm_compute; reflexivity.
Qed.

(** X10. An integer descriptor without choices yields an [IntegerField]
    bounded by the descriptor's [min_value] and [max_value]; with choices
    the bounds are dropped: the choice field gets neither argument. *)
Theorem int_field_bounds self d kw s min_value max_value choices :
  kind d = "intfield" ->
  base_field_ok d = true ->
  d_attrs d !! "min_value" = Some min_value ->
  d_attrs d !! "max_value" = Some max_value ->
  d_attrs d !! "choices" = Some choices ->
  exists f,
    generate self d kw s = (Ok (Some f), s) /\
    form_cls f = (if truthy choices then TypedChoiceField else IntegerField) /\
    (kw !! "min_value" = None ->
     form_kwargs f !! "min_value" = if truthy choices then None else Some min_value) /\
    (kw !! "max_value" = None ->
     form_kwargs f !! "max_value" = if truthy choices then None else Some max_value).
Proof.
  intros K Hok Emin Emax Ec.
  destruct (base_field_ok_attrs d Hok) as (dv & r & c & Ed & Er & Ec' & Pc).
  rewrite Ec in Ec'. injection Ec' as <-.
  destruct (get_field_label_returns d Hok) as (lb & El).
  destruct (get_field_help_text_returns d Hok) as (h & Eh).
  assert (getattr_self (generate_ (kind d)) = Some m_intfield) as Hm
      by (rewrite K; reflexivity).
  destruct (truthy choices) eqn:Tc.
  - destruct (seq_truthy_list choices Pc Tc) as (l & Hl).
    pose proof (generate_intfield_choices d kw s dv r choices lb h l
                  Ed Er Ec El Eh Tc Hl) as R.
    eexists. split; [eapply generate_exact_ok; [exact Hm | exact R] |].
    split; [reflexivity |].
    split; intros Hk; simpl form_kwargs;
      rewrite update_lookup_default by exact Hk; vm_compute; reflexivity.
  - pose proof (generate_intfield_plain d kw s dv r choices lb h
                  Ed Er Ec El Eh Tc min_value max_value Emin Emax) as R.
    eexists. split; [eapply generate_exact_ok; [exact Hm | exact R] |].
    split; [reflexivity |].
    split; intros Hk; simpl form_kwargs;
      rewrite update_lookup_default by exact Hk; vm_compute; reflexivity.
Qed.

(** ** Maps and references *)


(** X12. A reference descriptor yields a [ReferenceField] whose one
    positional argument is the query manager of the referenced document
    class; when [document_type] is not a document class the handler
    raises [AttributeError], in the lenient generator too. *)
Theorem reference_field_is_bound_to_manager self d kw s document_type :
  kind d = "referencefield" ->
  base_field_ok d = true ->
  d_attrs d !! "document_type" = Some document_type ->
  match document_type with
  | VDocument doc =>
      exists f, generate self d kw s = (Ok (Some f), s) /\
                form_cls f = ReferenceField /\
                form_args f = [AValue (VManager doc)]
  | _ => generate self d kw s = (Raise AttributeError, s)
  end.
Proof.
  intros K Hok Edoc.
  destruct (base_field_ok_attrs d Hok) as (dv & r & c & _ & Er & _).
  destruct (get_field_label_returns d Hok) as (lb & El).
  destruct (get_field_help_text_returns d Hok) as (h & Eh).
  assert (getattr_self (generate_ (kind d)) = Some m_referencefield) as Hm
      by (rewrite K; reflexivity).
  rewrite (generate_exact self d kw _ Hm s).
  cbv beta delta [call] iota. unfold generate_referencefield.
  rewrite (getattr_some _ _ _ Er), (getattr_some _ _ _ Edoc), El, Eh.
  destruct document_type; try reflexivity.
  eexists. split; [reflexivity |]. split; reflexivity.
Qed.

(** ** The helpers *)

(** X13. [get_field_choices] returns the blank choice list (when
    [include_blank] is set) followed by the descriptor's choices in their
    order, whatever the truth value of the blank choice list, and raises
    [TypeError] when the choices are not iterable ([None], say). *)
Theorem get_field_choices_prepends_blank d include_blank s choices :
  d_attrs d !! "choices" = Some choices ->
  get_field_choices d include_blank s =
  match py_list choices with
  | Some l =>
      (Ok (VList ((if include_blank then BLANK_CHOICE_DASH s else []) ++ l)), s)
  | None => (Raise TypeError, s)
  end.
Proof.
  intros Ec. unfold get_field_choices. rewrite (getattr_some _ _ _ Ec).
  mstep. unfold list_.
  destruct (py_list choices) as [l|]; [| reflexivity].
  destruct include_blank; [| reflexivity].
  destruct (BLANK_CHOICE_DASH s); reflexivity.
Qed.

(** X14. [boolean_field] returns [True] exactly for the strings that
    lower-case to ["true"]; and for a value that is neither empty nor a
    string (a bool or a non-empty list, say) it raises [AttributeError]
    rather than coerce it. *)
Theorem boolean_field_true_and_errors v s :
  (forall s', boolean_field v s = (Ok (VBool true), s') <->
              s' = s /\ exists str, v = VStr str /\ PyStr.lower str = "true") /\
  (~ In v EMPTY_VALUES -> (forall str, v <> VStr str) ->
   boolean_field v s = (Raise AttributeError, s)).
Proof.
  unfold boolean_field. split.
  - intros s'. split.
    + destruct (py_in v EMPTY_VALUES); [discriminate |].
      destruct v; try discriminate. intros [= E <-]. split; [reflexivity |].
      eexists. split; [reflexivity |]. apply String.eqb_eq, E.
    + intros (-> & str & -> & E).
      destruct (py_in (VStr str) EMPTY_VALUES) eqn:Ein.
      * apply py_in_EMPTY_VALUES in Ein. simpl in Ein.
        destruct Ein as [Ein | [Ein | [Ein | [Ein | [Ein | []]]]]];
          try discriminate Ein.
        injection Ein as <-. discriminate E.
      * rewrite E. reflexivity.
  - intros Hn Hs.
    destruct (py_in v EMPTY_VALUES) eqn:Ein;
      [apply py_in_EMPTY_VALUES in Ein; contradiction |].
    destruct v; try reflexivity. exfalso. eapply Hs. reflexivity.
Qed.

(** X15. For a kind with a handler of its own the lenient generator is
    that handler and nothing else: its fallback is reserved for kinds
    that do not resolve, so an [AttributeError] or [TypeError] of the
    handler reaches the caller of the lenient generator as well. *)
Theorem lenient_generate_is_the_handler d kw s m :
  getattr_self (generate_ (kind d)) = Some m ->
  generate MongoDefaultFormFieldGenerator d kw s
  = call (generate MongoDefaultFormFieldGenerator) m d kw s.
Proof. intros Hm. apply generate_exact, Hm. Qed.

(** ** What the overrides can change *)













(** ** What of the descriptor's class is looked at *)

Lemma call_ignores_class sg m c1 c2 a f kw :
  call sg m (Descriptor c1 a f) kw = call sg m (Descriptor c2 a f) kw.
Proof. destruct m; reflexivity. Qed.

(** X17. Of the class of a descriptor, [generate] looks at the
    lower-cased name and at the lower-cased name of the first base class,
    and at nothing else: two descriptors with the same attributes and
    element whose classes agree on these two names are treated alike,
    whatever their remaining base classes are. *)
Theorem only_name_and_first_base_matter self c1 c2 a f kw s :
  PyStr.lower (class_name c1) = PyStr.lower (class_name c2) ->
  first_base_kind c1 = first_base_kind c2 ->
  generate self (Descriptor c1 a f) kw s = generate self (Descriptor c2 a f) kw s.
Proof.
  intros Hn Hb.
  assert (forall sg,
            MongoFormFieldGenerator_generate sg (Descriptor c1 a f) kw
            = MongoFormFieldGenerator_generate sg (Descriptor c2 a f) kw) as Hbase.
  { intros sg. unfold MongoFormFieldGenerator_generate, call_by_name. simpl d_class.
    rewrite Hn. unfold first_base_kind in Hb.
    destruct (getattr_self _); [apply call_ignores_class |].
    destruct (class_bases c1) as [|b1 r1], (class_bases c2) as [|b2 r2];
      try discriminate Hb; [reflexivity |].
    injection Hb as ->.
    reflexivity. }
  rewrite !generate_unfold.
  destruct self; unfold MongoDefaultFormFieldGenerator_generate;
    rewrite Hbase; reflexivity.
Qed.

(** ** Where [NotImplementedError] comes from *)

Lemma strict_supported_with_handler d kw m :
  getattr_self (generate_ (kind d)) = Some m ->
  (forall e kw', d_field d = Some e ->
                 supported (generate MongoFormFieldGenerator e kw')) ->
  supported (generate MongoFormFieldGenerator d kw).
Proof.
  intros Hm He. rewrite generate_unfold, (base_generate_exact _ _ _ _ Hm).
  apply supported_call, He.
Qed.

Lemma strict_supported_unless_unhandled d :
  has_unhandled_kind d = false ->
  forall kw, supported (generate MongoFormFieldGenerator d kw).
Proof.
  unfold has_unhandled_kind.
  induction d as [c a | c a e IH] using descriptor_elem_ind;
    simpl element_chain; simpl existsb; rewrite orb_false_iff;
    unfold no_handler at 1; intros [Hk Hrest] kw.
  - destruct (getattr_self (generate_ (kind (Descriptor c a None)))) as [m|] eqn:Hm;
      [| discriminate Hk].
    apply (strict_supported_with_handler _ _ _ Hm). simpl. intros e kw' E.
    discriminate E.
  - destruct (getattr_self (generate_ (kind (Descriptor c a (Some e))))) as [m|] eqn:Hm;
      [| discriminate Hk].
    apply (strict_supported_with_handler _ _ _ Hm). simpl. intros e' kw' [= <-].
    apply IH, Hrest.
Qed.

(** X18. The strict generator raises [NotImplementedError] only because
    of a kind without a handler of its own name: whenever it raises it,
    the descriptor, its element, or an element further down is of such a
    kind.  No handler raises it by itself. *)
Theorem not_implemented_points_at_an_unhandled_kind d kw s s' :
  generate MongoFormFieldGenerator d kw s = (Raise NotImplementedError, s') ->
  has_unhandled_kind d = true.
Proof.
  intros E. destruct (has_unhandled_kind d) eqn:Hu; [reflexivity |].
  exfalso. exact (strict_supported_unless_unhandled d Hu kw s s' E).
Qed.

End FurtherFacts.

(** * Labels and help texts *)

(** ** Django's [get_verbose_name] on snake_case names *)

Lemma snake_char_plain c :
  snake_char c = true -> PyStr.is_upper c = false /\ Django.is_space c = false.
Proof.
  destruct c as [[] [] [] [] [] [] [] []]; vm_compute; intros E;
    first [discriminate E | split; reflexivity].
Qed.

Lemma snake_case_cons c r :
  snake_case (String c r) = true ->
  PyStr.is_upper c = false /\ Django.is_space c = false /\ snake_case r = true.
Proof.
  simpl. intros E. apply andb_prop in E as [Hc Hr].
  destruct (snake_char_plain c Hc). auto.
Qed.

Lemma space_capitals_snake_case n :
  snake_case n = true -> forall prev, Django.space_capitals prev n = n.
Proof.
  induction n as [| c r IH]; intros E prev; [reflexivity |].
  apply snake_case_cons in E as (Hu & _ & Hr).
  cbn [Django.space_capitals]. rewrite Hu. cbn [andb]. rewrite (IH Hr). reflexivity.
Qed.

Lemma lower_snake_case n : snake_case n = true -> PyStr.lower n = n.
Proof.
  induction n as [| c r IH]; intros E; [reflexivity |].
  apply snake_case_cons in E as (Hu & _ & Hr).
  cbn [PyStr.lower]. unfold PyStr.lower_char. rewrite Hu, (IH Hr). reflexivity.
Qed.

Lemma rstrip_snake_case n : snake_case n = true -> Django.rstrip n = n.
Proof.
  induction n as [| c r IH]; intros E; [reflexivity |].
  apply snake_case_cons in E as (_ & Hs & Hr).
  cbn [Django.rstrip]. rewrite (IH Hr), Hs. destruct r; reflexivity.
Qed.

Lemma lstrip_snake_case n : snake_case n = true -> Django.lstrip n = n.
Proof.
  destruct n as [| c r]; intros E; [reflexivity |].
  apply snake_case_cons in E as (_ & Hs & _).
  cbn [Django.lstrip]. rewrite Hs. reflexivity.
Qed.

(** On such a name [get_verbose_name] changes nothing: there is no
    capital to put a space before or to lower-case, no blank to strip. *)
Lemma get_verbose_name_snake_case n :
  snake_case n = true -> Django.get_verbose_name n = n.
Proof.
  intros E. unfold Django.get_verbose_name.
  rewrite (space_capitals_snake_case n E), (lower_snake_case n E),
    (rstrip_snake_case n E). apply lstrip_snake_case, E.
Qed.

(** C7 (amended). The label is the verbose name when that is truthy;
    else, when the name is set, the name as Django's [get_verbose_name]
    normalises it, with its first character upper-cased and no other
    character touched, which for a snake_case name such as [first_name]
    is the name itself with a capital first letter ([First_name]); else
    the empty string.  The help text, when non-empty, is the
    descriptor's help text with its first character upper-cased and
    every other character lower-cased.  Names and help texts are ASCII
    text. *)
Theorem C7_label_and_help_text d s :
  (forall vn, d_attrs d !! "verbose_name" = Some vn -> truthy vn = true ->
     get_field_label d s = (Ok vn, s)) /\
  (forall vn n, d_attrs d !! "verbose_name" = Some vn -> truthy vn = false ->
     d_attrs d !! "name" = Some (VStr n) -> PyStr.is_ascii n = true ->
     get_field_label d s
       = (Ok (VStr (PyStr.upper_first (Django.get_verbose_name n))), s) /\
     (snake_case n = true ->
      get_field_label d s = (Ok (VStr (PyStr.upper_first n)), s))) /\
  (forall vn, d_attrs d !! "verbose_name" = Some vn -> truthy vn = false ->
     d_attrs d !! "name" = Some VNone ->
     get_field_label d s = (Ok (VStr ""), s)) /\
  (forall c r, d_attrs d !! "help_text" = Some (VStr (String c r)) ->
     PyStr.is_ascii (String c r) = true ->
     get_field_help_text d s =
     (Ok (VStr (String (PyStr.upper_char c) (PyStr.lower r))), s)).
Proof.
  unfold get_field_label, get_field_help_text.
  split; [| split; [| split]].
  - intros vn Ev T. rewrite (getattr_some _ _ _ Ev). mstep. rewrite T. reflexivity.
  - intros vn n Ev T En _.
    rewrite (getattr_some _ _ _ Ev), (getattr_some _ _ _ En). mstep.
    rewrite T. cbn [get_verbose_name capfirst django_text]. unfold Django.capfirst.
    split; [reflexivity |].
    intros Hn. rewrite (get_verbose_name_snake_case n Hn). reflexivity.
  - intros vn Ev T En.
    rewrite (getattr_some _ _ _ Ev), (getattr_some _ _ _ En). mstep.
    rewrite T. reflexivity.
  - intros c r Eh _. rewrite (getattr_some _ _ _ Eh). reflexivity.
Qed.


(** * The generator on concrete descriptors *)

(** A list of strings: the class of the element's form field, wrapped
    in a list field. *)
Example list_of_strings_generated :
  exists kwargs,
    generate MongoFormFieldGenerator list_of_strings ∅ initial_state
    = (Ok (Some (FormField ListField [AClass (FormClass MongoCharField)] kwargs)),
       initial_state).
Proof. eexists. vm_compute. reflexivity. Qed.

(** A sorted list has no handler of its own and resolves through its
    base class [ListField]. *)
Example sorted_list_resolves_through_base :
  no_handler (kind sorted_list_of_strings) = true /\
  generate MongoFormFieldGenerator sorted_list_of_strings ∅ initial_state
  = generate MongoFormFieldGenerator list_of_strings ∅ initial_state.
Proof. split; vm_compute; reflexivity. Qed.

(** A subclass of [SortedListField] resolves through the alias table:
    its base class has no handler but is a key of [field_map]. *)
Example ranked_list_resolves_through_alias :
  no_handler (kind ranked_list_of_strings) = true /\
  no_handler (PyStr.lower (class_name Mongoengine.SortedListField)) = true /\
  field_map initial_state !! PyStr.lower (class_name Mongoengine.SortedListField)
    = Some "generate_listfield" /\
  generate MongoFormFieldGenerator ranked_list_of_strings ∅ initial_state
  = generate MongoFormFieldGenerator list_of_strings ∅ initial_state.
Proof. repeat split; vm_compute; reflexivity. Qed.

(** A list of a kind without a handler: the strict generator raises; in
    the lenient one the element falls back to a [CharField], whose class
    the list field wraps. *)
Example list_of_unsupported_elements :
  generate MongoFormFieldGenerator list_of_generic_references ∅ initial_state
    = (Raise NotImplementedError, initial_state) /\
  exists kwargs,
    generate MongoDefaultFormFieldGenerator list_of_generic_references ∅ initial_state
    = (Ok (Some (FormField ListField [AClass (FormClass CharField)] kwargs)),
       initial_state).
Proof. split; [| eexists]; vm_compute; reflexivity. Qed.

(** A list without an element: [field.field.choices] raises
    [AttributeError], which neither generator catches on the exact path. *)
Example list_without_element_raises :
  generate MongoFormFieldGenerator list_without_element ∅ initial_state
    = (Raise AttributeError, initial_state) /\
  generate MongoDefaultFormFieldGenerator list_without_element ∅ initial_state
    = (Raise AttributeError, initial_state).
Proof. split; vm_compute; reflexivity. Qed.

(** C1, at the instance of [Tagged]: its own name and its first base class
    [Mixin] have no handler, so [NotImplementedError] is raised although
    [generate_stringfield] exists for the second base class. *)
Lemma C1_tagged_field_is_refused :
  (no_handler (kind tagged_field) = true /\
   class_bases (d_class tagged_field) = [Mixin; Mongoengine.StringField] /\
   no_handler (PyStr.lower (class_name Mixin)) = true /\
   no_alias initial_state (PyStr.lower (class_name Mixin)) = true) /\
  no_handler (PyStr.lower (class_name Mongoengine.StringField)) = false /\
  (exists f, generate_stringfield tagged_field ∅ initial_state
               = (Ok (Some f), initial_state) /\
             form_cls f = MongoCharField) /\
  generate MongoFormFieldGenerator tagged_field ∅ initial_state
    = (Raise NotImplementedError, initial_state).
Proof.
  assert (no_handler (kind tagged_field) = true) as H1 by reflexivity.
  assert (class_bases (d_class tagged_field) = [Mixin; Mongoengine.StringField])
    as H2 by reflexivity.
  assert (no_handler (PyStr.lower (class_name Mixin)) = true) as H3 by reflexivity.
  assert (no_alias initial_state (PyStr.lower (class_name Mixin)) = true)
    as H4 by (vm_compute; reflexivity).
  split; [auto |]. split; [reflexivity |]. split.
  - eexists. split; [vm_compute; reflexivity | reflexivity].
  - exact (C1_only_first_base_is_tried tagged_field ∅ initial_state _ _ H1 H2 H3 H4).
Defined.

(** C2, at a [GenericReferenceField]: the strict generator raises, the
    lenient one returns a [CharField] with the descriptor's [required] and
    [default] and, the descriptor having no length attributes, no length
    arguments. *)
Lemma C2_generic_reference_falls_back :
  (unrecognized initial_state generic_reference = true /\
   class_bases (d_class generic_reference) <> []) /\
  generate MongoFormFieldGenerator generic_reference ∅ initial_state
    = (Raise NotImplementedError, initial_state) /\
  exists f,
    generate MongoDefaultFormFieldGenerator generic_reference ∅ initial_state
      = (Ok (Some f), initial_state) /\
    form_cls f = CharField /\
    form_kwargs f !! "required" = Some (VBool false) /\
    form_kwargs f !! "initial" = Some VNone /\
    form_kwargs f !! "min_length" = None /\
    form_kwargs f !! "max_length" = None.
Proof.
  destruct (C2_lenient_falls_back_strict_raises generic_reference ∅ initial_state)
    as (_ & Hfallback & Hstrict).
  assert (unrecognized initial_state generic_reference = true) as H1
    by (vm_compute; reflexivity).
  assert (class_bases (d_class generic_reference) <> []) as H2 by discriminate.
  split; [auto |]. split; [exact (Hstrict H1 H2) |].
  destruct (Hfallback initial_state (VBool false)) as (f & R & C & _ & K).
  - vm_compute; reflexivity.
  - vm_compute; reflexivity.
  - exists f. split; [exact R |]. split; [exact C |].
    rewrite !K by reflexivity. vm_compute. auto.
Defined.

(** C3 as stated fails on a string descriptor that has both a regex and
    choices: with neither generator is the form field a
    [TypedChoiceField]. *)
Lemma C3_no_choice_field_with_regex :
  kind string_with_regex_and_choices = "stringfield" /\
  attr_ok string_with_regex_and_choices "choices" truthy = true /\
  has_regex string_with_regex_and_choices = true /\
  ~ (exists f s',
        generate MongoFormFieldGenerator string_with_regex_and_choices ∅ initial_state
          = (Ok (Some f), s') /\
        form_cls f = TypedChoiceField) /\
  ~ (exists f s',
        generate MongoDefaultFormFieldGenerator string_with_regex_and_choices ∅
          initial_state = (Ok (Some f), s') /\
        form_cls f = TypedChoiceField).
Proof.
  split; [reflexivity |]. split; [vm_compute; reflexivity |].
  split; [vm_compute; reflexivity |]. split.
  - intros (f & s' & R & C). vm_compute in R. injection R as <- _. discriminate C.
  - intros (f & s' & R & C). vm_compute in R. injection R as <- _. discriminate C.
Qed.

(** C3 (amended), at an integer descriptor with choices and at the string
    descriptor with choices and no regex. *)
Lemma C3_choice_fields_generated :
  (base_field_ok int_with_choices = true /\
   attr_ok int_with_choices "choices" truthy = true /\
   kind int_with_choices = "intfield") /\
  (base_field_ok string_with_choices = true /\
   attr_ok string_with_choices "choices" truthy = true /\
   kind string_with_choices = "stringfield" /\
   attr_ok string_with_choices "max_length" any_value = true /\
   attr_ok string_with_choices "regex" any_value = true /\
   has_regex string_with_choices = false) /\
  (exists f,
      generate MongoFormFieldGenerator int_with_choices ∅ initial_state
        = (Ok (Some f), initial_state) /\
      form_cls f = TypedChoiceField /\
      form_kwargs f !! "coerce" = Some (VMethod integer_field_m)) /\
  (exists f,
      generate MongoFormFieldGenerator string_with_choices ∅ initial_state
        = (Ok (Some f), initial_state) /\
      form_cls f = TypedChoiceField /\
      form_kwargs f !! "coerce" = Some (VMethod string_field_m)).
Proof.
  assert (base_field_ok int_with_choices = true) as H1 by (vm_compute; reflexivity).
  assert (attr_ok int_with_choices "choices" truthy = true) as H2
    by (vm_compute; reflexivity).
  assert (kind int_with_choices = "intfield") as H3 by reflexivity.
  assert (base_field_ok string_with_choices = true) as G1 by (vm_compute; reflexivity).
  assert (attr_ok string_with_choices "choices" truthy = true) as G2
    by (vm_compute; reflexivity).
  assert (kind string_with_choices = "stringfield") as G3 by reflexivity.
  assert (attr_ok string_with_choices "max_length" any_value = true) as G4
    by (vm_compute; reflexivity).
  assert (attr_ok string_with_choices "regex" any_value = true) as G5
    by (vm_compute; reflexivity).
  assert (has_regex string_with_choices = false) as G6 by (vm_compute; reflexivity).
  split; [auto |]. split; [auto 10 |]. split.
  - destruct (C3_choices_give_choice_field_without_regex MongoFormFieldGenerator
                int_with_choices ∅ initial_state H1 H2 (or_introl H3))
      as (f & R & C & K).
    exists f. split; [exact R |]. split; [exact C |]. exact (K eq_refl).
  - destruct (C3_choices_give_choice_field_without_regex MongoFormFieldGenerator
                string_with_choices ∅ initial_state G1 G2
                (or_intror (or_intror (conj G3 (conj G4 (conj G5 G6))))))
      as (f & R & C & K).
    exists f. split; [exact R |]. split; [exact C |]. exact (K eq_refl).
Defined.



(** C5, at [StringField(choices=[("a","A"),("b","B")], required=False)]. *)
Lemma C5_string_with_choices :
  (kind string_with_choices = "stringfield" /\
   base_field_ok string_with_choices = true /\
   attr_ok string_with_choices "max_length" any_value = true /\
   d_attrs string_with_choices !! "regex" = Some VNone /\
   d_attrs string_with_choices !! "choices" = Some ab_choices /\
   d_attrs string_with_choices !! "required" = Some (VBool false)) /\
  exists f,
    generate MongoFormFieldGenerator string_with_choices ∅ initial_state
      = (Ok (Some f), initial_state) /\
    form_cls f = TypedChoiceField /\
    form_kwargs f !! "choices" =
      Some (VList [pair_ "" "---------"; pair_ "a" "A"; pair_ "b" "B"]) /\
    form_kwargs f !! "empty_value" = Some VNone.
Proof.
  assert (kind string_with_choices = "stringfield") as H1 by reflexivity.
  assert (base_field_ok string_with_choices = true) as H2 by (vm_compute; reflexivity).
  assert (attr_ok string_with_choices "max_length" any_value = true) as H3
    by (vm_compute; reflexivity).
  assert (d_attrs string_with_choices !! "regex" = Some VNone) as H4
    by (vm_compute; reflexivity).
  assert (d_attrs string_with_choices !! "choices" = Some ab_choices) as H5
    by (vm_compute; reflexivity).
  assert (d_attrs string_with_choices !! "required" = Some (VBool false)) as H6
    by (vm_compute; reflexivity).
  split; [auto 10 |].
  exact (C5_string_choices_example MongoFormFieldGenerator string_with_choices ∅
           initial_state H1 H2 H3 H4 H5 H6 eq_refl eq_refl eq_refl).
Defined.


(** C7 as stated fails twice.  The label of the attribute [first_name]
    is [First_name]: only the first letter is a capital, where title-casing
    gives [First_Name].  The help text [use ISO format] becomes
    [Use iso format]: upper-casing its first letter alone gives
    [Use ISO format]. *)
Lemma C7_label_not_title_cased_help_text_lower_cased :
  (d_attrs first_name !! "verbose_name" = Some VNone /\
   d_attrs first_name !! "name" = Some (VStr "first_name") /\
   PyStr.title "first_name" = "First_Name" /\
   get_field_label first_name initial_state
     = (Ok (VStr "First_name"), initial_state) /\
   get_field_label first_name initial_state
     <> (Ok (VStr (PyStr.title "first_name")), initial_state)) /\
  (d_attrs string_with_help_text !! "help_text" = Some (VStr "use ISO format") /\
   PyStr.upper_first "use ISO format" = "Use ISO format" /\
   get_field_help_text string_with_help_text initial_state
     = (Ok (VStr "Use iso format"), initial_state) /\
   get_field_help_text string_with_help_text initial_state
     <> (Ok (VStr (PyStr.upper_first "use ISO format")), initial_state)).
Proof.
  split.
  - split; [vm_compute; reflexivity |]. split; [vm_compute; reflexivity |].
    split; [reflexivity |]. split; [vm_compute; reflexivity |].
    intros E. vm_compute in E. discriminate E.
  - split; [vm_compute; reflexivity |]. split; [reflexivity |].
    split; [vm_compute; reflexivity |].
    intros E. vm_compute in E. discriminate E.
Qed.

(** C7 (amended), at the same two descriptors. *)
Lemma C7_label_and_help_text_examples :
  (d_attrs first_name !! "verbose_name" = Some VNone /\
   truthy VNone = false /\
   d_attrs first_name !! "name" = Some (VStr "first_name") /\
   PyStr.is_ascii "first_name" = true /\
   snake_case "first_name" = true /\
   d_attrs string_with_help_text !! "help_text" = Some (VStr "use ISO format") /\
   PyStr.is_ascii "use ISO format" = true) /\
  get_field_label first_name initial_state
    = (Ok (VStr "First_name"), initial_state) /\
  get_field_help_text string_with_help_text initial_state
    = (Ok (VStr "Use iso format"), initial_state).
Proof.
  assert (d_attrs first_name !! "verbose_name" = Some VNone) as H1
    by (vm_compute; reflexivity).
  assert (d_attrs first_name !! "name" = Some (VStr "first_name")) as H2
    by (vm_compute; reflexivity).
  assert (PyStr.is_ascii "first_name" = true) as H3 by reflexivity.
  assert (snake_case "first_name" = true) as H4 by reflexivity.
  assert (d_attrs string_with_help_text !! "help_text" = Some (VStr "use ISO format"))
    as H5 by (vm_compute; reflexivity).
  assert (PyStr.is_ascii "use ISO format" = true) as H6 by reflexivity.
  split; [auto 10 |]. split.
  - destruct (C7_label_and_help_text first_name initial_state)
      as (_ & Hname & _ & _).
    exact (proj2 (Hname VNone "first_name" H1 eq_refl H2 H3) H4).
  - destruct (C7_label_and_help_text string_with_help_text initial_state)
      as (_ & _ & _ & Hhelp).
    exact (Hhelp _ _ H5 H6).
Defined.

(** C9, at the integer descriptor with choices, which is required, and at
    the string descriptor with choices, which is not. *)
Lemma C9_empty_value_examples :
  (base_field_ok int_with_choices = true /\
   attr_ok int_with_choices "choices" truthy = true /\
   attr_ok int_with_choices "required" truthy = true /\
   kind int_with_choices = "intfield") /\
  (base_field_ok string_with_choices = true /\
   attr_ok string_with_choices "choices" truthy = true /\
   attr_ok string_with_choices "required" truthy = false /\
   kind string_with_choices = "stringfield" /\
   attr_ok string_with_choices "max_length" any_value = true /\
   attr_ok string_with_choices "regex" any_value = true /\
   has_regex string_with_choices = false) /\
  (exists f,
      generate MongoFormFieldGenerator int_with_choices ∅ initial_state
        = (Ok (Some f), initial_state) /\
      form_cls f = TypedChoiceField /\
      form_kwargs f !! "empty_value" = Some VNone) /\
  (exists f,
      generate MongoFormFieldGenerator string_with_choices ∅ initial_state
        = (Ok (Some f), initial_state) /\
      form_cls f = TypedChoiceField /\
      form_kwargs f !! "empty_value" = Some VNone).
Proof.
  assert (base_field_ok int_with_choices = true) as H1 by (vm_compute; reflexivity).
  assert (attr_ok int_with_choices "choices" truthy = true) as H2
    by (vm_compute; reflexivity).
  assert (attr_ok int_with_choices "required" truthy = true) as H3
    by (vm_compute; reflexivity).
  assert (kind int_with_choices = "intfield") as H4 by reflexivity.
  assert ((∅ : dict) !! "empty_value" = None) as H5 by reflexivity.
  assert (base_field_ok string_with_choices = true) as G1
    by (vm_compute; reflexivity).
  assert (attr_ok string_with_choices "choices" truthy = true) as G2
    by (vm_compute; reflexivity).
  assert (attr_ok string_with_choices "max_length" any_value = true) as G3
    by (vm_compute; reflexivity).
  assert (attr_ok string_with_choices "regex" any_value = true) as G4
    by (vm_compute; reflexivity).
  assert (has_regex string_with_choices = false) as G5 by (vm_compute; reflexivity).
  assert (attr_ok string_with_choices "required" truthy = false) as G6
    by (vm_compute; reflexivity).
  assert (kind string_with_choices = "stringfield") as G7 by reflexivity.
  split; [auto 10 |]. split; [auto 10 |]. split.
  - destruct (C9_empty_value_of_choice_fields MongoFormFieldGenerator
                int_with_choices ∅ initial_state H1 H2 H5) as [Hint _].
    exact (Hint (or_introl H4)).
  - destruct (C9_empty_value_of_choice_fields MongoFormFieldGenerator
                string_with_choices ∅ initial_state G1 G2 H5) as [_ Hstr].
    destruct (Hstr G7 G3 G4 G5) as (f & R & C & V).
    exists f. split; [exact R |]. split; [exact C |].
    rewrite G6 in V. exact V.
Defined.

(** C10, at the empty list and at the strings ["TRUE"] and ["yes"]. *)
Lemma C10_boolean_field_examples :
  In (VList []) EMPTY_VALUES /\
  boolean_field (VList []) initial_state = (Ok VNone, initial_state) /\
  boolean_field (VStr "TRUE") initial_state = (Ok (VBool true), initial_state) /\
  boolean_field (VStr "yes") initial_state = (Ok (VBool false), initial_state).
Proof.
  assert (In (VList []) EMPTY_VALUES) as H1 by (simpl; auto).
  split; [exact H1 |]. split; [| split].
  - exact (proj1 (C10_boolean_field_coercion (VList []) initial_state) H1).
  - exact (proj2 (C10_boolean_field_coercion (VStr "TRUE") initial_state)
             "TRUE" eq_refl ltac:(discriminate)).
  - exact (proj2 (C10_boolean_field_coercion (VStr "yes") initial_state)
             "yes" eq_refl ltac:(discriminate)).
Defined.

(** * The further properties on concrete descriptors *)

(** X1, at the string descriptor with choices, which is not required. *)
Lemma required_of_string_with_choices :
  exists f,
    generate MongoFormFieldGenerator string_with_choices ∅ initial_state
      = (Ok (Some f), initial_state) /\
    form_kwargs f !! "required" = Some (VBool false).
Proof.
  assert (exists f, generate MongoFormFieldGenerator string_with_choices ∅ initial_state
                    = (Ok (Some f), initial_state)) as (f & E)
      by (eexists; vm_compute; reflexivity).
  exists f. split; [exact E |].
  destruct (generate_passes_required MongoFormFieldGenerator string_with_choices ∅
              initial_state f initial_state E) as (required & Er & K).
  rewrite (K eq_refl), <- Er. vm_compute. reflexivity.
Defined.

(** X2, at a float descriptor with choices: a [FloatField] all the same. *)
Lemma float_with_choices_is_a_float_field :
  (getattr_self (generate_ (kind float_with_choices)) = Some m_floatfield /\
   attr_ok float_with_choices "choices" truthy = true) /\
  exists f,
    generate MongoFormFieldGenerator float_with_choices ∅ initial_state
      = (Ok (Some f), initial_state) /\
    form_cls f = FloatField /\
    form_kwargs f !! "choices" = None.
Proof.
  split; [split; vm_compute; reflexivity |].
  assert (exists r, generate MongoFormFieldGenerator float_with_choices ∅ initial_state
                    = (Ok r, initial_state)) as (r & E)
      by (eexists; vm_compute; reflexivity).
  destruct (fixed_class_kinds_ignore_choices MongoFormFieldGenerator
              float_with_choices ∅ initial_state m_floatfield FloatField r
              initial_state eq_refl eq_refl E) as (f & -> & C & K).
  exists f. split; [exact E |]. split; [exact C | exact (K eq_refl)].
Defined.

(** X3, at a datetime descriptor with a help text: the label is passed,
    the help text is not. *)
Lemma datetime_gets_no_help_text :
  (getattr_self (generate_ (kind datetime_with_help_text)) = Some m_datetimefield /\
   d_attrs datetime_with_help_text !! "help_text" = Some (VStr "local time")) /\
  exists f,
    generate MongoFormFieldGenerator datetime_with_help_text ∅ initial_state
      = (Ok (Some f), initial_state) /\
    form_kwargs f !! "label" = Some (VStr "") /\
    form_kwargs f !! "help_text" = None.
Proof.
  split; [split; vm_compute; reflexivity |].
  assert (exists f, generate MongoFormFieldGenerator datetime_with_help_text ∅
                      initial_state = (Ok (Some f), initial_state)) as (f & E)
      by (eexists; vm_compute; reflexivity).
  exists f. split; [exact E |].
  destruct (generate_passes_label_and_help_text MongoFormFieldGenerator
              datetime_with_help_text ∅ initial_state m_datetimefield f
              initial_state eq_refl E)
    as ((label & El & Kl) & Kh).
  split; [| exact (Kh eq_refl)].
  rewrite (Kl eq_refl). specialize (El initial_state). vm_compute in El.
  injection El as <-. reflexivity.
Defined.


(** X6, at an instance of [Slug]: the string handler's field. *)
Lemma slug_resolves_through_string_field :
  (no_handler (kind slug_field) = true /\
   class_bases (d_class slug_field) = [Mongoengine.StringField] /\
   getattr_self (generate_ (PyStr.lower (class_name Mongoengine.StringField)))
     = Some m_stringfield) /\
  generate MongoFormFieldGenerator slug_field ∅ initial_state
    = generate_stringfield slug_field ∅ initial_state /\
  exists f, generate MongoFormFieldGenerator slug_field ∅ initial_state
              = (Ok (Some f), initial_state) /\
            form_cls f = MongoCharField.
Proof.
  assert (no_handler (kind slug_field) = true) as H1 by reflexivity.
  assert (class_bases (d_class slug_field) = [Mongoengine.StringField]) as H2
    by reflexivity.
  assert (getattr_self (generate_ (PyStr.lower (class_name Mongoengine.StringField)))
          = Some m_stringfield) as H3 by reflexivity.
  assert (exists f, generate_stringfield slug_field ∅ initial_state
                    = (Ok (Some f), initial_state) /\ form_cls f = MongoCharField)
    as (f & E & C) by (eexists; split; [vm_compute; reflexivity | reflexivity]).
  pose proof (subclass_resolves_through_first_base slug_field ∅ initial_state
                _ _ m_stringfield _ _ H1 H2 H3 E ltac:(discriminate)) as R.
  split; [auto |]. split; [rewrite R, E; reflexivity |].
  exists f. split; [exact R | exact C].
Defined.

(** X7, at an instance of [Tags] that has no element: the list handler
    raises [AttributeError], the strict generator reports an unsupported
    kind and the lenient one returns a [CharField]. *)
Lemma tags_without_element_is_masked :
  (no_handler (kind tags_without_element) = true /\
   class_bases (d_class tags_without_element) = [Mongoengine.ListField] /\
   generate_listfield (generate MongoFormFieldGenerator) tags_without_element ∅
     initial_state = (Raise AttributeError, initial_state)) /\
  generate MongoFormFieldGenerator tags_without_element ∅ initial_state
    = (Raise NotImplementedError, initial_state) /\
  exists f,
    generate MongoDefaultFormFieldGenerator tags_without_element ∅ initial_state
      = (Ok (Some f), initial_state) /\
    form_cls f = CharField.
Proof.
  assert (no_handler (kind tags_without_element) = true) as H1 by reflexivity.
  assert (class_bases (d_class tags_without_element) = [Mongoengine.ListField]) as H2
    by reflexivity.
  assert (getattr_self (generate_ (PyStr.lower (class_name Mongoengine.ListField)))
          = Some m_listfield) as H3 by reflexivity.
  assert (forall self,
             call (generate self) m_listfield tags_without_element ∅ initial_state
             = (Raise AttributeError, initial_state)) as H4
    by (intros []; vm_compute; reflexivity).
  assert (no_alias initial_state (PyStr.lower (class_name Mongoengine.ListField)) = true)
    as H5 by (vm_compute; reflexivity).
  split; [split; [exact H1 | split; [exact H2 | exact (H4 MongoFormFieldGenerator)]] |].
  split.
  - exact (attribute_error_of_base_handler_is_masked MongoFormFieldGenerator
             tags_without_element ∅ initial_state _ _ m_listfield initial_state
             H1 H2 H3 (H4 _) H5).
  - rewrite (attribute_error_of_base_handler_is_masked MongoDefaultFormFieldGenerator
               tags_without_element ∅ initial_state _ _ m_listfield initial_state
               H1 H2 H3 (H4 _) H5).
    eexists. split; [vm_compute; reflexivity | reflexivity].
Defined.

(** X8, at an instance of [Ranked], a subclass of [SortedListField]. *)
Lemma ranked_list_uses_list_handler :
  (no_handler (kind ranked_list_of_strings) = true /\
   class_bases (d_class ranked_list_of_strings) = [Mongoengine.SortedListField] /\
   PyStr.lower (class_name Mongoengine.SortedListField) = "sortedlistfield") /\
  generate MongoFormFieldGenerator ranked_list_of_strings ∅ initial_state
    = generate_listfield (generate MongoFormFieldGenerator)
        ranked_list_of_strings ∅ initial_state.
Proof.
  assert (no_handler (kind ranked_list_of_strings) = true) as H1 by reflexivity.
  assert (class_bases (d_class ranked_list_of_strings) = [Mongoengine.SortedListField])
    as H2 by reflexivity.
  assert (PyStr.lower (class_name Mongoengine.SortedListField) = "sortedlistfield")
    as H3 by reflexivity.
  split; [auto |].
  exact (sorted_list_subclass_uses_list_handler MongoFormFieldGenerator
           ranked_list_of_strings ∅ initial_state _ _ H1 H2 H3 eq_refl).
Defined.

(** X9, at [StringField()]: no maximal length and no choices, so the
    field is a [MongoCharField] with a [Textarea] widget and no
    [max_length]. *)
Lemma plain_string_gets_textarea :
  (kind plain_string = "stringfield" /\
   base_field_ok plain_string = true /\
   attr_ok plain_string "regex" any_value = true /\
   has_regex plain_string = false /\
   d_attrs plain_string !! "max_length" = Some VNone /\
   d_attrs plain_string !! "choices" = Some VNone) /\
  exists f,
    generate MongoFormFieldGenerator plain_string ∅ initial_state
      = (Ok (Some f), initial_state) /\
    form_cls f = MongoCharField /\
    form_kwargs f !! "widget" = Some (VWidget Textarea) /\
    form_kwargs f !! "max_length" = None.
Proof.
  assert (kind plain_string = "stringfield") as H1 by reflexivity.
  assert (base_field_ok plain_string = true) as H2 by (vm_compute; reflexivity).
  assert (attr_ok plain_string "regex" any_value = true) as H3
    by (vm_compute; reflexivity).
  assert (d_attrs plain_string !! "max_length" = Some VNone) as H4
    by (vm_compute; reflexivity).
  assert (d_attrs plain_string !! "choices" = Some VNone) as H5
    by (vm_compute; reflexivity).
  assert (has_regex plain_string = false) as H6 by (vm_compute; reflexivity).
  split; [auto 10 |].
  destruct (string_field_widget_and_max_length MongoFormFieldGenerator plain_string ∅
              initial_state VNone VNone H1 H2 H3 H6 H4 H5) as (f & E & C & W & L).
  exists f. split; [exact E |]. split; [exact (C eq_refl) |].
  split; [exact (W eq_refl) | exact (L eq_refl)].
Defined.

(** X10, at [IntField(min_value=0, max_value=10)]. *)
Lemma bounded_int_gets_bounds :
  (kind bounded_int = "intfield" /\
   base_field_ok bounded_int = true /\
   d_attrs bounded_int !! "min_value" = Some (VInt 0) /\
   d_attrs bounded_int !! "max_value" = Some (VInt 10) /\
   d_attrs bounded_int !! "choices" = Some VNone) /\
  exists f,
    generate MongoFormFieldGenerator bounded_int ∅ initial_state
      = (Ok (Some f), initial_state) /\
    form_cls f = IntegerField /\
    form_kwargs f !! "min_value" = Some (VInt 0) /\
    form_kwargs f !! "max_value" = Some (VInt 10).
Proof.
  assert (kind bounded_int = "intfield") as H1 by reflexivity.
  assert (base_field_ok bounded_int = true) as H2 by (vm_compute; reflexivity).
  assert (d_attrs bounded_int !! "min_value" = Some (VInt 0)) as H3
    by (vm_compute; reflexivity).
  assert (d_attrs bounded_int !! "max_value" = Some (VInt 10)) as H4
    by (vm_compute; reflexivity).
  assert (d_attrs bounded_int !! "choices" = Some VNone) as H5
    by (vm_compute; reflexivity).
  split; [auto 10 |].
  destruct (int_field_bounds MongoFormFieldGenerator bounded_int ∅ initial_state
              (VInt 0) (VInt 10) VNone H1 H2 H3 H4 H5) as (f & E & C & Kmin & Kmax).
  exists f. split; [exact E |]. split; [exact C |].
  split; [exact (Kmin eq_refl) | exact (Kmax eq_refl)].
Defined.


(** X12, at [ReferenceField(Author)]. *)
Lemma author_reference_is_bound_to_its_manager :
  (kind author_reference = "referencefield" /\
   base_field_ok author_reference = true /\
   d_attrs author_reference !! "document_type" = Some (VDocument "Author")) /\
  exists f,
    generate MongoFormFieldGenerator author_reference ∅ initial_state
      = (Ok (Some f), initial_state) /\
    form_cls f = ReferenceField /\
    form_args f = [AValue (VManager "Author")].
Proof.
  assert (kind author_reference = "referencefield") as H1 by reflexivity.
  assert (base_field_ok author_reference = true) as H2 by (vm_compute; reflexivity).
  assert (d_attrs author_reference !! "document_type" = Some (VDocument "Author"))
    as H3 by (vm_compute; reflexivity).
  split; [auto |].
  exact (reference_field_is_bound_to_manager MongoFormFieldGenerator author_reference
           ∅ initial_state (VDocument "Author") H1 H2 H3).
Defined.

(** X13, at the string descriptor with choices and at the plain one,
    whose choices are [None]. *)
Lemma get_field_choices_examples :
  (d_attrs string_with_choices !! "choices" = Some ab_choices /\
   d_attrs plain_string !! "choices" = Some VNone) /\
  get_field_choices string_with_choices true initial_state
    = (Ok (VList [pair_ "" "---------"; pair_ "a" "A"; pair_ "b" "B"]), initial_state) /\
  get_field_choices string_with_choices false initial_state
    = (Ok (VList [pair_ "a" "A"; pair_ "b" "B"]), initial_state) /\
  get_field_choices plain_string true initial_state = (Raise TypeError, initial_state).
Proof.
  assert (d_attrs string_with_choices !! "choices" = Some ab_choices) as H1
    by (vm_compute; reflexivity).
  assert (d_attrs plain_string !! "choices" = Some VNone) as H2
    by (vm_compute; reflexivity).
  split; [auto |]. split; [| split].
  - exact (get_field_choices_prepends_blank string_with_choices true initial_state
             ab_choices H1).
  - exact (get_field_choices_prepends_blank string_with_choices false initial_state
             ab_choices H1).
  - exact (get_field_choices_prepends_blank plain_string true initial_state VNone H2).
Defined.

(** X14, at the string ["True"] and at the boolean [True]. *)
Lemma boolean_field_on_true :
  boolean_field (VStr "True") initial_state = (Ok (VBool true), initial_state) /\
  (~ In (VBool true) EMPTY_VALUES /\ forall str, VBool true <> VStr str) /\
  boolean_field (VBool true) initial_state = (Raise AttributeError, initial_state).
Proof.
  assert (~ In (VBool true) EMPTY_VALUES) as H1
    by (simpl; intros [E | [E | [E | [E | [E | []]]]]]; discriminate E).
  assert (forall str, VBool true <> VStr str) as H2 by discriminate.
  split; [| split; [auto |]].
  - apply (proj1 (boolean_field_true_and_errors (VStr "True") initial_state)).
    split; [reflexivity |]. exists "True". split; reflexivity.
  - exact (proj2 (boolean_field_true_and_errors (VBool true) initial_state) H1 H2).
Defined.

(** X15, at the list without an element: the lenient generator raises
    the [AttributeError] of the list handler. *)
Lemma lenient_raises_for_list_without_element :
  getattr_self (generate_ (kind list_without_element)) = Some m_listfield /\
  generate MongoDefaultFormFieldGenerator list_without_element ∅ initial_state
    = (Raise AttributeError, initial_state).
Proof.
  assert (getattr_self (generate_ (kind list_without_element)) = Some m_listfield)
    as H1 by reflexivity.
  split; [exact H1 |].
  rewrite (lenient_generate_is_the_handler list_without_element ∅ initial_state
             m_listfield H1).
  vm_compute. reflexivity.
Defined.


(** X17, at the classes [Slug(StringField)] and [SLUG(StringField, Mixin)]. *)
Lemma slug_classes_are_treated_alike :
  (PyStr.lower (class_name Slug) = PyStr.lower (class_name SLUG) /\
   first_base_kind Slug = first_base_kind SLUG) /\
  generate MongoFormFieldGenerator
    (Descriptor Slug (d_attrs slug_field) None) ∅ initial_state
  = generate MongoFormFieldGenerator
      (Descriptor SLUG (d_attrs slug_field) None) ∅ initial_state.
Proof.
  assert (PyStr.lower (class_name Slug) = PyStr.lower (class_name SLUG)) as H1
    by reflexivity.
  assert (first_base_kind Slug = first_base_kind SLUG) as H2 by reflexivity.
  split; [auto |].
  exact (only_name_and_first_base_matter MongoFormFieldGenerator Slug SLUG
           (d_attrs slug_field) None ∅ initial_state H1 H2).
Defined.

(** X18, at the list of generic references: the element is of a kind
    without a handler. *)
Lemma unsupported_element_is_found :
  generate MongoFormFieldGenerator list_of_generic_references ∅ initial_state
    = (Raise NotImplementedError, initial_state) /\
  no_handler (kind list_of_generic_references) = false /\
  no_handler (kind generic_reference) = true /\
  has_unhandled_kind list_of_generic_references = true.
Proof.
  assert (generate MongoFormFieldGenerator list_of_generic_references ∅ initial_state
          = (Raise NotImplementedError, initial_state)) as E
    by (vm_compute; reflexivity).
  split; [exact E |]. split; [reflexivity |]. split; [reflexivity |].
  exact (not_implemented_points_at_an_unhandled_kind list_of_generic_references ∅
           initial_state initial_state E).
Defined.
